(** * Record translator (src/translations/recordTranslator.js)

    A shallow embedding of the [RecordTranslator] class and of the
    translator registry ([registerIdentity], [getTranslator],
    [getIdentity]) over a small model of the JavaScript store: values,
    heap objects with a class and properties, and the two module-level
    [WeakMap]s. *)

From stdpp Require Import gmap strings list fin_maps pretty.
From Stdlib Require Import ZArith Lia.

Local Open Scope string_scope.
Local Open Scope Z_scope.

(** ** JavaScript values and objects *)

(** Object references are heap locations. *)
Abbreviation loc := positive.

Inductive value : Type :=
| VUndefined
| VNull
| VBool (b : bool)
| VNum (n : Z)
| VStr (s : string)
| VRef (l : loc).

#[global] Instance value_eq_dec : EqDecision value.
Proof. solve_decision. Defined.

#[global] Instance value_inhabited : Inhabited value := populate VUndefined.

(** The classes an object of this program can be an instance of.  [ClsObject]
    is an object literal, [ClsArray] an array literal. *)
Inductive cls : Type :=
| ClsObject
| ClsArray
| ClsCore
| ClsIndexMapper
| ClsRecordTranslator.

#[global] Instance cls_eq_dec : EqDecision cls.
Proof. solve_decision. Defined.

Record object : Type := Obj {
  obj_class : cls;
  obj_props : gmap string value;
}.

(** What a [throw] carries: the [Error] of [getIdentity], the [TypeError]s
    of the language itself, or any value a collaborator throws. *)
Inductive exn : Type :=
| ExnError (msg : string)
| ExnTypeError (msg : string)
| ExnValue (v : value).

Inductive res (A : Type) : Type :=
| Ok (a : A)
| Throw (e : exn).
Arguments Ok {A} a.
Arguments Throw {A} e.

(** ** The store *)

Section Store.
(** Private state of the collaborators (host hooks, index mappers). *)
Context {Ext : Type}.

Record World : Type := MkWorld {
  heap : gmap loc object;
  identities : gmap loc value;            (* const identities = new WeakMap() *)
  translatorSingletons : gmap loc value;  (* const translatorSingletons = new WeakMap() *)
  ext : Ext;
}.

Definition set_heap (f : gmap loc object → gmap loc object) (w : World) : World :=
  MkWorld (f (heap w)) (identities w) (translatorSingletons w) (ext w).
Definition set_identities (f : gmap loc value → gmap loc value) (w : World) : World :=
  MkWorld (heap w) (f (identities w)) (translatorSingletons w) (ext w).
Definition set_translatorSingletons (f : gmap loc value → gmap loc value) (w : World) : World :=
  MkWorld (heap w) (identities w) (f (translatorSingletons w)) (ext w).

(** Computations: state passing with exceptions. *)
Definition M (A : Type) : Type := World → res A * World.

Definition ret {A} (a : A) : M A := fun w => (Ok a, w).
Definition throw {A} (e : exn) : M A := fun w => (Throw e, w).
Definition bind {A B} (m : M A) (k : A → M B) : M B :=
  fun w => match m w with
           | (Ok a, w') => k a w'
           | (Throw e, w') => (Throw e, w')
           end.
Definition gets {A} (f : World → A) : M A := fun w => (Ok (f w), w).
End Store.

Arguments World : clear implicits.
Arguments M : clear implicits.

Notation "'let*' x ':=' m 'in' k" := (bind m (fun x => k))
  (at level 10, x name, m at level 100, k at level 200,
   format "'[v' 'let*'  x  :=  m  'in'  '/' k ']'").
Notation "m ;;; k" := (bind m (fun _ => k))
  (at level 100, right associativity).

(** ** Language primitives used by the module *)

Section Primitives.
Context {Ext : Type}.
Local Abbreviation World := (World Ext).
Local Abbreviation M := (M Ext).

(** The value of property [k] of the object at [l]; a property that is
    not there reads as [undefined]. *)
Definition field (w : World) (l : loc) (k : string) : value :=
  default VUndefined (o ← heap w !! l; obj_props o !! k).

(** The class of the object at [l], if there is one. *)
Definition classOf (w : World) (l : loc) : option cls :=
  obj_class <$> heap w !! l.

(** [v.k]: reading a property.  Reading from [undefined] or [null] throws;
    a primitive has none of the properties this module reads. *)
Definition getProp (v : value) (k : string) : M value := fun w =>
  match v with
  | VUndefined | VNull =>
      (Throw (ExnTypeError "Cannot read properties of undefined or null"), w)
  | VRef l => (Ok (field w l k), w)
  | _ => (Ok VUndefined, w)
  end.

(** [this.k = x] on an object. *)
Definition setProp (v : value) (k : string) (x : value) : M unit := fun w =>
  match v with
  | VUndefined | VNull =>
      (Throw (ExnTypeError "Cannot set properties of undefined or null"), w)
  | VRef l =>
      (Ok tt, set_heap (alter (fun o => Obj (obj_class o) (<[k:=x]> (obj_props o))) l) w)
  | _ => (Ok tt, w)
  end.

(** A fresh object: [new C()], an object literal or an array literal. *)
Definition alloc (o : object) : M value := fun w =>
  let l := fresh (dom (heap w)) in
  (Ok (VRef l), set_heap (insert l o) w).

(** [recv.meth(args)]: the receiver is looked at before the arguments are
    evaluated, and a missing receiver throws at once. *)
Definition callMethod {A} (recv : value) (args : M A) (meth : A → M value) : M value :=
  match recv with
  | VUndefined | VNull =>
      throw (ExnTypeError "Cannot read properties of undefined or null")
  | _ => let* a := args in meth a
  end.

(** [v instanceof Core]: only an object is an instance. *)
Definition instanceofCore (v : value) (w : World) : bool :=
  match v with
  | VRef l => bool_decide (classOf w l = Some ClsCore)
  | _ => false
  end.

(** [WeakMap.prototype.has], [get] and [set]: only objects are keys. *)
Definition weakmap_has (m : gmap loc value) (k : value) : bool :=
  match k with
  | VRef l => bool_decide (is_Some (m !! l))
  | _ => false
  end.

Definition weakmap_get (m : gmap loc value) (k : value) : value :=
  match k with
  | VRef l => default VUndefined (m !! l)
  | _ => VUndefined
  end.

Definition weakmap_set (m : gmap loc value) (k v : value) : res (gmap loc value) :=
  match k with
  | VRef l => Ok (<[l:=v]> m)
  | _ => Throw (ExnTypeError "Invalid value used as weak map key")
  end.
End Primitives.

(** ** Collaborators

    The host's hook runner, the [IndexMapper] methods and the [isObject]
    helper are imported by the module and are not part of it: they are the
    parameters of the development. *)

Class Collaborators (Ext : Type) : Type := {
  (* hot.runHooks(name, value) *)
  runHooks : value → string → value → M Ext value;
  (* mapper.getVisualIndex(index), mapper.getPhysicalIndex(index) *)
  getVisualIndex : value → value → M Ext value;
  getPhysicalIndex : value → value → M Ext value;
  (* mapper.getSkippedIndexes(), mapper.isSkipped(index),
     mapper.setSkippedIndexes(indexes) *)
  getSkippedIndexes : value → M Ext value;
  isSkipped : value → value → M Ext value;
  setSkippedIndexes : value → value → M Ext value;
  (* isObject(value), from helpers/object *)
  isObject : value → World Ext → bool;
}.

(** ** class RecordTranslator *)

Section RecordTranslator.
Context {Ext : Type} `{!Collaborators Ext}.
Local Abbreviation World := (World Ext).
Local Abbreviation M := (M Ext).

(** Modelled from the spec: the constructor of [IndexMapper] is not in the
    sources; "an IndexMapper is created when a RecordTranslator is created
    for a host", so [new IndexMapper()] is a fresh object of that class,
    whose private state the mapper's own methods keep. *)
Definition newIndexMapper : M value := alloc (Obj ClsIndexMapper ∅).

(** [constructor(hot)], run by [new RecordTranslator(hot)]. *)
Definition newRecordTranslator (hot : value) : M value :=
  let* this := alloc (Obj ClsRecordTranslator ∅) in
  setProp this "hot" hot ;;;
  let* rowIndexMapper := newIndexMapper in
  setProp this "rowIndexMapper" rowIndexMapper ;;;
  let* columnIndexMapper := newIndexMapper in
  setProp this "columnIndexMapper" columnIndexMapper ;;;
  ret this.

Definition toVisualRow (this row : value) : M value :=
  let* hot := getProp this "hot" in
  callMethod hot
    (let* m := getProp this "rowIndexMapper" in
     callMethod m (ret row) (getVisualIndex m))
    (runHooks hot "unmodifyRow").

Definition toVisualColumn (this column : value) : M value :=
  let* hot := getProp this "hot" in
  callMethod hot
    (let* m := getProp this "columnIndexMapper" in
     callMethod m (ret column) (getVisualIndex m))
    (runHooks hot "unmodifyCol").

(** The object literal [{row: r, column: c}] and the array literal
    [[r, c]]. *)
Definition coordObject (r c : value) : object :=
  Obj ClsObject (<["row" := r]> (<["column" := c]> ∅)).
Definition coordArray (r c : value) : object :=
  Obj ClsArray (<["0" := r]> (<["1" := c]> (<["length" := VNum 2]> ∅))).

Definition toVisual (this row column : value) : M value :=
  let* b := gets (isObject row) in
  if b : bool then
    let* rr := getProp row "row" in
    let* r := toVisualRow this rr in
    let* cc := getProp row "column" in
    let* c := toVisualColumn this cc in
    alloc (coordObject r c)
  else
    let* r := toVisualRow this row in
    let* c := toVisualColumn this column in
    alloc (coordArray r c).

Definition toPhysicalRow (this row : value) : M value :=
  let* hot := getProp this "hot" in
  callMethod hot
    (let* m := getProp this "rowIndexMapper" in
     callMethod m (ret row) (getPhysicalIndex m))
    (runHooks hot "modifyRow").

Definition toPhysicalColumn (this column : value) : M value :=
  let* hot := getProp this "hot" in
  callMethod hot
    (let* m := getProp this "columnIndexMapper" in
     callMethod m (ret column) (getPhysicalIndex m))
    (runHooks hot "modifyCol").

Definition toPhysical (this row column : value) : M value :=
  let* b := gets (isObject row) in
  if b : bool then
    let* rr := getProp row "row" in
    let* r := toPhysicalRow this rr in
    let* cc := getProp row "column" in
    let* c := toPhysicalColumn this cc in
    alloc (coordObject r c)
  else
    let* r := toPhysicalRow this row in
    let* c := toPhysicalColumn this column in
    alloc (coordArray r c).

Definition getSkippedRows (this : value) : M value :=
  let* m := getProp this "rowIndexMapper" in
  callMethod m (ret tt) (fun _ => getSkippedIndexes m).

Definition getSkippedColumns (this : value) : M value :=
  let* m := getProp this "columnIndexMapper" in
  callMethod m (ret tt) (fun _ => getSkippedIndexes m).

Definition isSkippedRow (this row : value) : M value :=
  let* m := getProp this "rowIndexMapper" in
  callMethod m (ret row) (isSkipped m).

Definition isSkippedColumn (this column : value) : M value :=
  let* m := getProp this "columnIndexMapper" in
  callMethod m (ret column) (isSkipped m).

(** The setters have no [return]: a call evaluates to [undefined]. *)
Definition setSkippedRows (this indexes : value) : M value :=
  let* m := getProp this "rowIndexMapper" in
  callMethod m (ret indexes) (setSkippedIndexes m) ;;;
  ret VUndefined.

Definition setSkippedColumns (this indexes : value) : M value :=
  let* m := getProp this "columnIndexMapper" in
  callMethod m (ret indexes) (setSkippedIndexes m) ;;;
  ret VUndefined.

(** ** The registry *)

Definition registerIdentity (identity hot : value) : M value := fun w =>
  match weakmap_set (identities w) identity hot with
  | Ok m => (Ok VUndefined, set_identities (fun _ => m) w)
  | Throw e => (Throw e, w)
  end.

Definition getIdentity (identity : value) : M value := fun w =>
  if negb (weakmap_has (identities w) identity) then
    (Throw (ExnError "Record translator was not registered for this object identity"), w)
  else
    (Ok (weakmap_get (identities w) identity), w).

Definition getTranslator (identity : value) : M value :=
  let* isCore := gets (instanceofCore identity) in
  let* instance := (if isCore : bool then ret identity else getIdentity identity) in
  let* cached := gets (fun w => weakmap_has (translatorSingletons w) instance) in
  if cached : bool then
    gets (fun w => weakmap_get (translatorSingletons w) instance)
  else
    let* singleton := newRecordTranslator instance in
    (fun w =>
       match weakmap_set (translatorSingletons w) instance singleton with
       | Ok m => (Ok tt, set_translatorSingletons (fun _ => m) w)
       | Throw e => (Throw e, w)
       end) ;;;
    ret singleton.
End RecordTranslator.

(** ** IndexMapper *)

Module IndexMapper.

(** Modelled from the spec: [indexMapper.js] is imported by the module and
    is not part of the sources.  Per the spec's data model an index mapper
    owns [indexOrder], the ordered sequence of the physical indexes of its
    axis, and [skipped], the physical indexes excluded from rendering; the
    visual order is [indexOrder] without the skipped indexes, and slot [i]
    of it is visual index [i].  The unmapped sentinel is [None]. *)
Record t : Type := Mk {
  indexOrder : list Z;
  skipped : list Z;
}.

(** Modelled from the spec: [isSkipped(physicalIndex)], the "membership
    test against skipped". *)
Definition isSkipped (m : t) (physicalIndex : Z) : bool :=
  bool_decide (physicalIndex ∈ skipped m).

(** Modelled from the spec: the derived [visualOrder], "the ordered sequence
    obtained by filtering indexOrder to remove any index present in
    skipped". *)
Definition visualOrder (m : t) : list Z :=
  filter (fun p => p ∉ skipped m) (indexOrder m).

(** Modelled from the spec: [getVisualIndex(physicalIndex)]; for an index
    that is not skipped "the result equals its zero-based rank among all
    non-skipped physical indexes when walked in indexOrder order", and an
    index that is skipped or unknown to [indexOrder] is unmapped. *)
Definition getVisualIndex (m : t) (physicalIndex : Z) : option Z :=
  if isSkipped m physicalIndex then None
  else (fun r => Z.of_nat (fst r)) <$> list_find (eq physicalIndex) (visualOrder m).

(** Modelled from the spec: [getPhysicalIndex(visualIndex)]; the index is "a
    valid rank into the current visual sequence; out-of-range returns the
    unmapped sentinel". *)
Definition getPhysicalIndex (m : t) (visualIndex : Z) : option Z :=
  if decide (0 ≤ visualIndex) then visualOrder m !! Z.to_nat visualIndex
  else None.

(** Modelled from the spec: [getSkippedIndexes()], the "sequence of physical
    indexes currently skipped". *)
Definition getSkippedIndexes (m : t) : list Z := skipped m.

(** Modelled from the spec: [setSkippedIndexes(newSkippedList)], which
    "replaces the entire skipped set". *)
Definition setSkippedIndexes (m : t) (newSkippedList : list Z) : t :=
  Mk (indexOrder m) newSkippedList.

(** Modelled from the spec: an index is within the range of the axis when
    it is one of the "physical indexes known to indexOrder". *)
Definition inRange (m : t) (physicalIndex : Z) : Prop :=
  physicalIndex ∈ indexOrder m.

End IndexMapper.

(** ** Specification vocabulary *)

Section Vocabulary.
Context {Ext : Type}.
Local Abbreviation World := (World Ext).
Local Abbreviation M := (M Ext).

(** [undefined] and [null] have no properties and no methods. *)
Definition nullish (v : value) : bool :=
  match v with
  | VUndefined | VNull => true
  | _ => false
  end.

(** [this] is a record translator holding the host [hot] and the two index
    mappers, as the constructor leaves it. *)
Record translatorAt (w : World) (this : loc)
    (hot rowIndexMapper columnIndexMapper : value) : Prop := {
  ta_hot : field w this "hot" = hot;
  ta_row : field w this "rowIndexMapper" = rowIndexMapper;
  ta_column : field w this "columnIndexMapper" = columnIndexMapper;
  ta_hot_recv : nullish hot = false;
  ta_row_recv : nullish rowIndexMapper = false;
  ta_column_recv : nullish columnIndexMapper = false;
}.

(** The first statement of [getTranslator]:
    [identity instanceof Core ? identity : getIdentity(identity)]. *)
Definition resolveInstance (identity : value) : M value :=
  let* isCore := gets (instanceofCore identity) in
  if isCore : bool then ret identity else getIdentity identity.

(** The rest of [getTranslator], from the resolved instance. *)
Definition singletonFor (instance : value) : M value :=
  let* cached := gets (fun w => weakmap_has (translatorSingletons w) instance) in
  if cached : bool then
    gets (fun w => weakmap_get (translatorSingletons w) instance)
  else
    let* singleton := newRecordTranslator instance in
    (fun w =>
       match weakmap_set (translatorSingletons w) instance singleton with
       | Ok m => (Ok tt, set_translatorSingletons (fun _ => m) w)
       | Throw e => (Throw e, w)
       end) ;;;
    ret singleton.

(** The heap after [new RecordTranslator(hot)] where the heap was [h]: the
    translator and its two index mappers are the three new objects. *)
Definition constructedHeap (hot : value) (h : gmap loc object) : gmap loc object :=
  let this := fresh (dom h) in
  let set k x := alter (fun o => Obj (obj_class o) (<[k:=x]> (obj_props o))) this in
  let h := set "hot" hot (<[this := Obj ClsRecordTranslator ∅]> h) in
  let row := fresh (dom h) in
  let h := set "rowIndexMapper" (VRef row) (<[row := Obj ClsIndexMapper ∅]> h) in
  let column := fresh (dom h) in
  set "columnIndexMapper" (VRef column) (<[column := Obj ClsIndexMapper ∅]> h).

(** What the rest of the program can do between two calls into the
    registry: anything that leaves the two module-private [WeakMap]s alone,
    and keeps every object and its class. *)
Record external (w w' : World) : Prop := {
  ext_identities : identities w' = identities w;
  ext_translatorSingletons : translatorSingletons w' = translatorSingletons w;
  ext_classOf : ∀ l c, classOf w l = Some c → classOf w' l = Some c;
}.

(** The calls into the registry; a call of [getTranslator] is recorded with
    the instance its identity resolved to. *)
Inductive event : Type :=
| EvRegisterIdentity (identity hot : value)
| EvGetTranslator (identity : value) (instance : res value)
| EvExternal.

(** Runs of the program, with the calls into the registry they make (most
    recent first). *)
Inductive steps : World → list event → World → Prop :=
| steps_nil w : steps w [] w
| steps_registerIdentity w tr w1 identity hot r w2 :
    steps w tr w1 →
    registerIdentity identity hot w1 = (r, w2) →
    steps w (EvRegisterIdentity identity hot :: tr) w2
| steps_getTranslator w tr w1 identity r w2 :
    steps w tr w1 →
    getTranslator identity w1 = (r, w2) →
    steps w (EvGetTranslator identity (fst (resolveInstance identity w1)) :: tr) w2
| steps_external w tr w1 w2 :
    steps w tr w1 →
    external w1 w2 →
    steps w (EvExternal :: tr) w2.

(** When the module is loaded both [WeakMap]s are empty. *)
Definition initial (w : World) : Prop :=
  identities w = ∅ ∧ translatorSingletons w = ∅.

Definition reachable (w : World) : Prop :=
  ∃ w0 tr, initial w0 ∧ steps w0 tr w.

(** [identity] was never passed to [registerIdentity]. *)
Definition neverRegistered (identity : value) (tr : list event) : Prop :=
  ∀ hot, EvRegisterIdentity identity hot ∉ tr.

(** No call of [getTranslator] has resolved to the host [h] yet. *)
Definition noCallFor (h : loc) (tr : list event) : Prop :=
  ∀ identity, EvGetTranslator identity (Ok (VRef h)) ∉ tr.

(** Every cached singleton is a [RecordTranslator] object. *)
Definition singletonsOk (w : World) : Prop :=
  ∀ h v, translatorSingletons w !! h = Some v →
    ∃ t, v = VRef t ∧ classOf w t = Some ClsRecordTranslator.

(** The two forms of a coordinate translation, over the translations
    [row] and [col] of the two axes. *)
Definition scalarForm (row col : value → M value) (r c : value) : M value :=
  let* a := row r in
  let* b := col c in
  alloc (coordArray a b).

Definition objectForm (row col : value → M value) (o : value) : M value :=
  let* rr := getProp o "row" in
  let* a := row rr in
  let* cc := getProp o "column" in
  let* b := col cc in
  alloc (coordObject a b).

(** The result of a coordinate translation: the reference returned is to
    an object of class [c] whose properties [k1] and [k2] hold [a] and
    [b]. *)
Definition returnsPair (res : res value * World) (c : cls) (k1 k2 : string)
    (a b : value) : Prop :=
  ∃ l w', res = (Ok (VRef l), w') ∧ classOf w' l = Some c
          ∧ field w' l k1 = a ∧ field w' l k2 = b.

(** What every step of a run keeps: the objects and their classes, the
    cached singletons, and that they are record translators. *)
Record grows (w w' : World) : Prop := {
  grows_classOf : ∀ l c, classOf w l = Some c → classOf w' l = Some c;
  grows_singletons :
    ∀ h v, translatorSingletons w !! h = Some v → translatorSingletons w' !! h = Some v;
  grows_singletonsOk : singletonsOk w → singletonsOk w';
}.

End Vocabulary.

(** ** A concrete host *)

Module Scenario.

(** The private state of the collaborators: the state of every index
    mapper, by the mapper object that owns it. *)
Abbreviation Ext := (gmap loc IndexMapper.t).

(** Modelled from the spec: the sentinel of an unmapped index, "conventionally
    -1 or undefined"; this host fixes -1. *)
Definition unmapped : value := VNum (-1).

Definition ofIndex (i : option Z) : value :=
  match i with
  | Some n => VNum n
  | None => unmapped
  end.

(** A mapper the host has not filled yet knows no index. *)
Definition mapperState (w : World Ext) (m : value) : IndexMapper.t :=
  match m with
  | VRef l => default (IndexMapper.Mk [] []) (ext w !! l)
  | _ => IndexMapper.Mk [] []
  end.

Definition setMapperState (m : value) (s : IndexMapper.t) (w : World Ext) : World Ext :=
  match m with
  | VRef l =>
      MkWorld (heap w) (identities w) (translatorSingletons w) (<[l:=s]> (ext w))
  | _ => w
  end.

(** Arrays of indexes, as objects with the properties "0", "1", ... and
    "length". *)
Definition arrayProps (xs : list value) : gmap string value :=
  <["length" := VNum (Z.of_nat (length xs))]>
    (list_to_map (imap (fun i x => (pretty i, x)) xs)).

Definition numberOf (v : value) : Z :=
  match v with
  | VNum n => n
  | _ => -1
  end.

Definition readArray (w : World Ext) (a : value) : list Z :=
  match a with
  | VRef l =>
      (fun i : nat => numberOf (field w l (pretty i)))
        <$> seq 0 (Z.to_nat (numberOf (field w l "length")))
  | _ => []
  end.

(** Modelled from the spec: the methods of [IndexMapper], on the model
    [IndexMapper.t], and the [isObject] helper ("is this value
    object-like"): any object that is not an array.  The host's hooks add 10
    to every row passing through 'modifyRow' and leave every other index
    alone. *)
#[global] Instance host : Collaborators Ext := {|
  runHooks hot name v :=
    match v with
    | VNum n => ret (if String.eqb name "modifyRow" then VNum (n + 10) else v)
    | _ => ret v
    end;
  getVisualIndex m i := fun w =>
    match i with
    | VNum n => (Ok (ofIndex (IndexMapper.getVisualIndex (mapperState w m) n)), w)
    | _ => (Ok unmapped, w)
    end;
  getPhysicalIndex m i := fun w =>
    match i with
    | VNum n => (Ok (ofIndex (IndexMapper.getPhysicalIndex (mapperState w m) n)), w)
    | _ => (Ok unmapped, w)
    end;
  getSkippedIndexes m := fun w =>
    alloc (Obj ClsArray
             (arrayProps (VNum <$> IndexMapper.getSkippedIndexes (mapperState w m)))) w;
  isSkipped m i := fun w =>
    (Ok (VBool (IndexMapper.isSkipped (mapperState w m) (numberOf i))), w);
  setSkippedIndexes m indexes := fun w =>
    (Ok VUndefined,
     setMapperState m
       (IndexMapper.setSkippedIndexes (mapperState w m) (readArray w indexes)) w);
  isObject v w :=
    match v with
    | VRef l =>
        match classOf w l with
        | Some c => bool_decide (c ≠ ClsArray)
        | None => false
        end
    | _ => false
    end;
|}.

(** The module just loaded, with one host (a [Core] instance at 1). *)
Definition w_loaded : World Ext := MkWorld (<[1%positive := Obj ClsCore ∅]> ∅) ∅ ∅ ∅.

(** The host with its translator (at 2, with the row mapper at 3 and the
    column mapper at 4), both axes holding the indexes 0..4 and nothing
    skipped, the coordinate object [{row: 2, column: 1}] at 5, the empty
    object [{}] at 6 and the array [[1]] at 7. *)
Definition w_host : World Ext :=
  let w := snd (getTranslator (VRef 1) w_loaded) in
  let w := setMapperState (VRef 3) (IndexMapper.Mk [0; 1; 2; 3; 4] []) w in
  let w := setMapperState (VRef 4) (IndexMapper.Mk [0; 1; 2; 3; 4] []) w in
  let w := snd (alloc (Obj ClsObject (<["row" := VNum 2]> (<["column" := VNum 1]> ∅))) w) in
  let w := snd (alloc (Obj ClsObject ∅) w) in
  snd (alloc (Obj ClsArray (arrayProps [VNum 1])) w).

(** The same after [setSkippedRows([1])]. *)
Definition w_skip : World Ext := snd (setSkippedRows (VRef 2) (VRef 7) w_host).

(** A world with two hosts (at 1 and 2) and a plugin object (at 3). *)
Definition w_two_hosts : World Ext :=
  MkWorld (<[1%positive := Obj ClsCore ∅]>
             (<[2%positive := Obj ClsCore ∅]>
                (<[3%positive := Obj ClsObject ∅]> ∅))) ∅ ∅ ∅.

(** What a call returned, with the properties of the object it returned. *)
Definition observe (r : res value * World Ext) : res (value * list (string * value)) :=
  match r with
  | (Ok (VRef l), w) =>
      Ok (VRef l, map_to_list (default ∅ (obj_props <$> heap w !! l)))
  | (Ok v, _) => Ok (v, [])
  | (Throw e, _) => Throw e
  end.

End Scenario.

(** ** Computations that leave the registry alone *)

Section Frames.
Context {Ext : Type}.

(** The computation [m] changes neither [identities] nor
    [translatorSingletons], whether it returns or throws. *)
Definition keepsRegistries {A} (m : M Ext A) : Prop :=
  ∀ w, identities (snd (m w)) = identities w
       ∧ translatorSingletons (snd (m w)) = translatorSingletons w.

(** The store [w'] is the store [w] with one more object, at [l]: the
    objects of [w], the two registries and the collaborators' state are as
    they were. *)
Definition sameBut (l : loc) (w w' : World Ext) : Prop :=
  (∀ l', l' ≠ l → heap w' !! l' = heap w !! l')
  ∧ identities w' = identities w
  ∧ translatorSingletons w' = translatorSingletons w
  ∧ ext w' = ext w.

(** The object at [l] is the two-element array [[a, b]]. *)
Definition pairArrayAt (w : World Ext) (l : loc) (a b : value) : Prop :=
  classOf w l = Some ClsArray
  ∧ field w l "0" = a
  ∧ field w l "1" = b
  ∧ field w l "length" = VNum 2.

(** The object at [l] is the coordinate object [{row: a, column: b}]. *)
Definition coordinateObjectAt (w : World Ext) (l : loc) (a b : value) : Prop :=
  classOf w l = Some ClsObject
  ∧ field w l "row" = a
  ∧ field w l "column" = b.

End Frames.

(** ** A strict host *)

Module Strict.

(** Modelled from the spec: index mappers that take numbers only and throw
    on any other index, and hooks that throw on a negative index; [isObject]
    ("is this value object-like") holds of any object that is not an
    array.  The collaborators keep no state. *)
#[global] Instance host : Collaborators unit := {|
  runHooks hot name v :=
    match v with
    | VNum n => if n <? 0 then throw (ExnValue v) else ret v
    | _ => ret v
    end;
  getVisualIndex m i :=
    match i with
    | VNum n => ret i
    | _ => throw (ExnTypeError "index is not a number")
    end;
  getPhysicalIndex m i :=
    match i with
    | VNum n => ret i
    | _ => throw (ExnTypeError "index is not a number")
    end;
  getSkippedIndexes m := ret VUndefined;
  isSkipped m i := ret (VBool false);
  setSkippedIndexes m indexes := ret VUndefined;
  isObject v w :=
    match v with
    | VRef l =>
        match classOf w l with
        | Some c => bool_decide (c ≠ ClsArray)
        | None => false
        end
    | _ => false
    end;
|}.

(** One host (at 1) with its translator (at 2, mappers at 3 and 4), the
    coordinate object [{row: 2, column: -3}] at 5, and a translator made
    without a host, [new RecordTranslator(undefined)], at 6. *)
Definition w_strict : World unit :=
  let w := MkWorld (<[1%positive := Obj ClsCore ∅]> ∅) ∅ ∅ tt in
  let w := snd (getTranslator (VRef 1) w) in
  let w := snd (alloc (Obj ClsObject (<["row" := VNum 2]> (<["column" := VNum (-3)]> ∅))) w) in
  snd (newRecordTranslator VUndefined w).

End Strict.

(** * Properties *)

(** ** The monad *)

Section MonadFacts.
Context {Ext : Type}.
Local Abbreviation M := (M Ext).

Lemma bind_ok {A B} (m : M A) (k : A → M B) w a w' :
  m w = (Ok a, w') → bind m k w = k a w'.
Proof. intros Hm. unfold bind. by rewrite Hm. Qed.

Lemma bind_throw {A B} (m : M A) (k : A → M B) w e w' :
  m w = (Throw e, w') → bind m k w = (Throw e, w').
Proof. intros Hm. unfold bind. by rewrite Hm. Qed.

Lemma bind_gets {A B} (f : World Ext → A) (k : A → M B) w :
  bind (gets f) k w = k (f w) w.
Proof. reflexivity. Qed.

Lemma bind_assoc {A B C} (m : M A) (k : A → M B) (k' : B → M C) w :
  bind (bind m k) k' w = bind m (fun a => bind (k a) k') w.
Proof. unfold bind. destruct (m w) as [[a|e] w']; reflexivity. Qed.

Lemma bind_cong_l {A B} (m m' : M A) (k : A → M B) w :
  m w = m' w → bind m k w = bind m' k w.
Proof. intros Hm. unfold bind. by rewrite Hm. Qed.

Lemma getProp_field (l : loc) k (w : World Ext) :
  getProp (VRef l) k w = (Ok (field w l k), w).
Proof. reflexivity. Qed.

Lemma callMethod_receiver {A} recv (args : M A) meth :
  nullish recv = false → callMethod recv args meth = bind args meth.
Proof. by destruct recv. Qed.

End MonadFacts.

(** ** The methods of RecordTranslator *)

Section TranslatorFacts.
Context {Ext : Type} `{!Collaborators Ext}.
Local Abbreviation World := (World Ext).
Local Abbreviation M := (M Ext).

Implicit Types (w : World) (this : loc) (hot rm cm : value).

(** A call [m.f(x)] on a mapper that is there is the call of [f]. *)
Lemma mapper_call rm (x : value) (f : value → value → M value) :
  nullish rm = false → callMethod rm (ret x) (f rm) = f rm x.
Proof. intros Hm. by rewrite callMethod_receiver. Qed.

(** A method call [this.hot.runHooks(name, this.mapper.f(x))] on a
    translator: the mapper's method, then the hook. *)
Lemma hooked_call w this hot m key name (f : value → value → M value) x :
  field w this "hot" = hot → nullish hot = false →
  field w this key = m → nullish m = false →
  (let* hot := getProp (VRef this) "hot" in
   callMethod hot
     (let* m := getProp (VRef this) key in callMethod m (ret x) (f m))
     (runHooks hot name)) w
  = (let* v := f m x in runHooks hot name v) w.
Proof.
  intros Hh Hnh Hm Hnm.
  rewrite (bind_ok _ _ _ _ _ (getProp_field this "hot" w)), Hh.
  rewrite (callMethod_receiver hot) by done.
  apply bind_cong_l.
  rewrite (bind_ok _ _ _ _ _ (getProp_field this key w)), Hm.
  by rewrite mapper_call.
Qed.

Lemma toVisualRow_eq w this hot rm cm row :
  translatorAt w this hot rm cm →
  toVisualRow (VRef this) row w
  = (let* v := getVisualIndex rm row in runHooks hot "unmodifyRow" v) w.
Proof. intros []. by apply hooked_call. Qed.

Lemma toVisualColumn_eq w this hot rm cm column :
  translatorAt w this hot rm cm →
  toVisualColumn (VRef this) column w
  = (let* v := getVisualIndex cm column in runHooks hot "unmodifyCol" v) w.
Proof. intros []. by apply hooked_call. Qed.

Lemma toPhysicalRow_eq w this hot rm cm row :
  translatorAt w this hot rm cm →
  toPhysicalRow (VRef this) row w
  = (let* v := getPhysicalIndex rm row in runHooks hot "modifyRow" v) w.
Proof. intros []. by apply hooked_call. Qed.

Lemma toPhysicalColumn_eq w this hot rm cm column :
  translatorAt w this hot rm cm →
  toPhysicalColumn (VRef this) column w
  = (let* v := getPhysicalIndex cm column in runHooks hot "modifyCol" v) w.
Proof. intros []. by apply hooked_call. Qed.

Lemma getSkippedRows_eq w this hot rm cm :
  translatorAt w this hot rm cm →
  getSkippedRows (VRef this) w = getSkippedIndexes rm w.
Proof.
  intros [_ Hr _ _ Hn _]. unfold getSkippedRows.
  rewrite (bind_ok _ _ _ _ _ (getProp_field this _ w)), Hr.
  by rewrite callMethod_receiver.
Qed.

Lemma getSkippedColumns_eq w this hot rm cm :
  translatorAt w this hot rm cm →
  getSkippedColumns (VRef this) w = getSkippedIndexes cm w.
Proof.
  intros [_ _ Hc _ _ Hn]. unfold getSkippedColumns.
  rewrite (bind_ok _ _ _ _ _ (getProp_field this _ w)), Hc.
  by rewrite callMethod_receiver.
Qed.

(** A delegated call [this.mapper.f(x)]. *)
Lemma delegated_call w this key m (f : value → value → M value) x :
  field w this key = m → nullish m = false →
  (let* m := getProp (VRef this) key in callMethod m (ret x) (f m)) w = f m x w.
Proof.
  intros Hm Hnm.
  rewrite (bind_ok _ _ _ _ _ (getProp_field this key w)), Hm.
  by rewrite mapper_call.
Qed.

(** The same in a method without [return]. *)
Lemma delegated_statement w this key m (f : value → value → M value) x :
  field w this key = m → nullish m = false →
  (let* m := getProp (VRef this) key in
   callMethod m (ret x) (f m) ;;; ret VUndefined) w
  = (f m x ;;; ret VUndefined) w.
Proof.
  intros Hm Hnm.
  rewrite (bind_ok _ _ _ _ _ (getProp_field this key w)), Hm.
  by rewrite mapper_call.
Qed.

(** C1: each of toVisualRow, toVisualColumn, toPhysicalRow and
    toPhysicalColumn is the call of the axis' index mapper (getVisualIndex
    for the first two, getPhysicalIndex for the last two) followed by the
    host hook 'unmodifyRow', 'unmodifyCol', 'modifyRow', 'modifyCol' on the
    mapper's result, and what the hook returns is what the method returns. *)
Theorem translation_is_mapper_then_hook w this hot rm cm index :
  translatorAt w this hot rm cm →
  toVisualRow (VRef this) index w
  = (let* v := getVisualIndex rm index in runHooks hot "unmodifyRow" v) w
  ∧ toVisualColumn (VRef this) index w
    = (let* v := getVisualIndex cm index in runHooks hot "unmodifyCol" v) w
  ∧ toPhysicalRow (VRef this) index w
    = (let* v := getPhysicalIndex rm index in runHooks hot "modifyRow" v) w
  ∧ toPhysicalColumn (VRef this) index w
    = (let* v := getPhysicalIndex cm index in runHooks hot "modifyCol" v) w.
Proof.
  intros Ht. split_and!.
  - by eapply toVisualRow_eq.
  - by eapply toVisualColumn_eq.
  - by eapply toPhysicalRow_eq.
  - by eapply toPhysicalColumn_eq.
Qed.

(** C8: getSkippedRows, isSkippedRow and setSkippedRows are the calls of
    getSkippedIndexes, isSkipped and setSkippedIndexes of the row index
    mapper, and the column methods those of the column index mapper: same
    argument, same result, same effect; the two setters return nothing. *)
Theorem skipped_methods_pass_through w this hot rm cm x :
  translatorAt w this hot rm cm →
  getSkippedRows (VRef this) w = getSkippedIndexes rm w
  ∧ getSkippedColumns (VRef this) w = getSkippedIndexes cm w
  ∧ isSkippedRow (VRef this) x w = isSkipped rm x w
  ∧ isSkippedColumn (VRef this) x w = isSkipped cm x w
  ∧ setSkippedRows (VRef this) x w = (setSkippedIndexes rm x ;;; ret VUndefined) w
  ∧ setSkippedColumns (VRef this) x w = (setSkippedIndexes cm x ;;; ret VUndefined) w.
Proof.
  intros Ht. split_and!.
  - by eapply getSkippedRows_eq.
  - by eapply getSkippedColumns_eq.
  - destruct Ht. by apply delegated_call.
  - destruct Ht. by apply delegated_call.
  - destruct Ht. by apply delegated_statement.
  - destruct Ht. by apply delegated_statement.
Qed.

(** C9: whatever the index mapper answers, the unmapped sentinel included,
    the hook of the method is run on that answer and the method returns
    what the hook returns. *)
Theorem sentinel_reaches_hook w this hot rm cm index sentinel w1 :
  translatorAt w this hot rm cm →
  (getVisualIndex rm index w = (Ok sentinel, w1) →
   toVisualRow (VRef this) index w = runHooks hot "unmodifyRow" sentinel w1)
  ∧ (getVisualIndex cm index w = (Ok sentinel, w1) →
     toVisualColumn (VRef this) index w = runHooks hot "unmodifyCol" sentinel w1)
  ∧ (getPhysicalIndex rm index w = (Ok sentinel, w1) →
     toPhysicalRow (VRef this) index w = runHooks hot "modifyRow" sentinel w1)
  ∧ (getPhysicalIndex cm index w = (Ok sentinel, w1) →
     toPhysicalColumn (VRef this) index w = runHooks hot "modifyCol" sentinel w1).
Proof.
  intros Ht. split_and!; intros Hm.
  - erewrite toVisualRow_eq by done. by apply bind_ok.
  - erewrite toVisualColumn_eq by done. by apply bind_ok.
  - erewrite toPhysicalRow_eq by done. by apply bind_ok.
  - erewrite toPhysicalColumn_eq by done. by apply bind_ok.
Qed.

(** Reading the object that [alloc] has just made. *)
Lemma alloc_eq (o : object) w :
  alloc o w = (Ok (VRef (fresh (dom (heap w)))),
               set_heap (insert (fresh (dom (heap w))) o) w).
Proof. reflexivity. Qed.

Lemma field_alloc w (o : object) k :
  field (set_heap (insert (fresh (dom (heap w))) o) w) (fresh (dom (heap w))) k
  = default VUndefined (obj_props o !! k).
Proof. unfold field. simpl. by rewrite lookup_insert_eq. Qed.

Lemma classOf_alloc w (o : object) :
  classOf (set_heap (insert (fresh (dom (heap w))) o) w) (fresh (dom (heap w)))
  = Some (obj_class o).
Proof. unfold classOf. simpl. by rewrite lookup_insert_eq. Qed.

Lemma toVisual_dispatch (this : value) row column w :
  toVisual this row column w
  = if isObject row w
    then objectForm (toVisualRow this) (toVisualColumn this) row w
    else scalarForm (toVisualRow this) (toVisualColumn this) row column w.
Proof. unfold toVisual. rewrite bind_gets. by destruct (isObject row w). Qed.

Lemma toPhysical_dispatch (this : value) row column w :
  toPhysical this row column w
  = if isObject row w
    then objectForm (toPhysicalRow this) (toPhysicalColumn this) row w
    else scalarForm (toPhysicalRow this) (toPhysicalColumn this) row column w.
Proof. unfold toPhysical. rewrite bind_gets. by destruct (isObject row w). Qed.

Lemma scalarForm_ok (row col : value → M value) r c w a w1 b w2 :
  row r w = (Ok a, w1) → col c w1 = (Ok b, w2) →
  scalarForm row col r c w = alloc (coordArray a b) w2.
Proof.
  intros Hr Hc. unfold scalarForm.
  rewrite (bind_ok _ _ _ _ _ Hr). by rewrite (bind_ok _ _ _ _ _ Hc).
Qed.

(** The object form reads [o.row] before the row is translated and
    [o.column] after. *)
Lemma objectForm_ok (row col : value → M value) o r c w a w1 b w2 :
  field w o "row" = r → row r w = (Ok a, w1) →
  field w1 o "column" = c → col c w1 = (Ok b, w2) →
  objectForm row col (VRef o) w = alloc (coordObject a b) w2.
Proof.
  intros Hfr Hr Hfc Hc. unfold objectForm.
  rewrite (bind_ok _ _ _ _ _ (getProp_field o "row" w)), Hfr.
  rewrite (bind_ok _ _ _ _ _ Hr).
  rewrite (bind_ok _ _ _ _ _ (getProp_field o "column" w1)), Hfc.
  by rewrite (bind_ok _ _ _ _ _ Hc).
Qed.

Lemma alloc_coordArray a b w :
  returnsPair (alloc (coordArray a b) w) ClsArray "0" "1" a b
  ∧ field (snd (alloc (coordArray a b) w)) (fresh (dom (heap w))) "length" = VNum 2.
Proof.
  rewrite alloc_eq. split; [eexists _, _; split_and!; [done|..]|].
  - by rewrite classOf_alloc.
  - by rewrite field_alloc.
  - by rewrite field_alloc.
  - simpl. by rewrite field_alloc.
Qed.

Lemma alloc_coordObject a b w :
  returnsPair (alloc (coordObject a b) w) ClsObject "row" "column" a b.
Proof.
  rewrite alloc_eq. eexists _, _; split_and!; [done|..].
  - by rewrite classOf_alloc.
  - by rewrite field_alloc.
  - by rewrite field_alloc.
Qed.

(** The object that [alloc] makes is new, and the store is otherwise as it
    was. *)
Lemma alloc_fresh w : heap w !! fresh (dom (heap w)) = None.
Proof. apply not_elem_of_dom, is_fresh. Qed.

Lemma alloc_sameBut (o : object) w :
  sameBut (fresh (dom (heap w))) w
    (set_heap (insert (fresh (dom (heap w))) o) w).
Proof.
  split_and!; try done. intros l' Hl'. simpl. by rewrite lookup_insert_ne.
Qed.

(** What the array literal and the object literal hold. *)
Lemma alloc_pairArray a b w :
  pairArrayAt (set_heap (insert (fresh (dom (heap w))) (coordArray a b)) w)
    (fresh (dom (heap w))) a b.
Proof.
  split_and!; [by rewrite classOf_alloc | by rewrite field_alloc..].
Qed.

Lemma alloc_coordinateObject a b w :
  coordinateObjectAt (set_heap (insert (fresh (dom (heap w))) (coordObject a b)) w)
    (fresh (dom (heap w))) a b.
Proof.
  split_and!; [by rewrite classOf_alloc | by rewrite field_alloc..].
Qed.

(** C2: for a row index [r] and a column index [c], and hooks that leave
    the coordinate object alone, toVisual(r, c) returns a new array of
    length 2 whose elements are toVisualRow(r) and toVisualColumn(c), and
    toVisual({row: r, column: c}) returns a new object whose row and column
    are the same two values; in both cases the store is the one the two
    translations left, with the result added.  And so for toPhysical. *)
Theorem coordinate_shape_equivalence (this : value) w r c o unused :
  isObject r w = false →
  isObject (VRef o) w = true →
  field w o "row" = r →
  field w o "column" = c →
  (∀ a w1 b w2,
     toVisualRow this r w = (Ok a, w1) →
     toVisualColumn this c w1 = (Ok b, w2) →
     field w1 o "column" = field w o "column" →
     ∃ l wA wO,
       heap w2 !! l = None
       ∧ toVisual this r c w = (Ok (VRef l), wA)
       ∧ pairArrayAt wA l a b
       ∧ sameBut l w2 wA
       ∧ toVisual this (VRef o) unused w = (Ok (VRef l), wO)
       ∧ coordinateObjectAt wO l a b
       ∧ sameBut l w2 wO)
  ∧ (∀ a w1 b w2,
       toPhysicalRow this r w = (Ok a, w1) →
       toPhysicalColumn this c w1 = (Ok b, w2) →
       field w1 o "column" = field w o "column" →
       ∃ l wA wO,
         heap w2 !! l = None
         ∧ toPhysical this r c w = (Ok (VRef l), wA)
         ∧ pairArrayAt wA l a b
         ∧ sameBut l w2 wA
         ∧ toPhysical this (VRef o) unused w = (Ok (VRef l), wO)
         ∧ coordinateObjectAt wO l a b
         ∧ sameBut l w2 wO).
Proof.
  intros Hr Ho Hfr Hfc. split; intros a w1 b w2 Hrow Hcol Hframe.
  - rewrite !toVisual_dispatch, Hr, Ho.
    rewrite (scalarForm_ok _ _ _ _ _ _ _ _ _ Hrow Hcol).
    rewrite (objectForm_ok _ _ o r c w a w1 b w2) by (done || by rewrite Hframe).
    rewrite !alloc_eq. eexists _, _, _.
    split_and!; [apply alloc_fresh | done | apply alloc_pairArray
                | apply alloc_sameBut | done | apply alloc_coordinateObject
                | apply alloc_sameBut].
  - rewrite !toPhysical_dispatch, Hr, Ho.
    rewrite (scalarForm_ok _ _ _ _ _ _ _ _ _ Hrow Hcol).
    rewrite (objectForm_ok _ _ o r c w a w1 b w2) by (done || by rewrite Hframe).
    rewrite !alloc_eq. eexists _, _, _.
    split_and!; [apply alloc_fresh | done | apply alloc_pairArray
                | apply alloc_sameBut | done | apply alloc_coordinateObject
                | apply alloc_sameBut].
Qed.


(** An object-like first argument always takes the object form, whatever
    properties it has. *)
Lemma object_argument_is_object_form (this : value) row column w :
  isObject row w = true →
  toVisual this row column w
  = objectForm (toVisualRow this) (toVisualColumn this) row w
  ∧ toPhysical this row column w
    = objectForm (toPhysicalRow this) (toPhysicalColumn this) row w.
Proof.
  intros Hrow. by rewrite toVisual_dispatch, toPhysical_dispatch, Hrow.
Qed.

End TranslatorFacts.

(** ** The methods on the concrete host *)

Module ScenarioFacts.
Import Scenario.

Lemma translator_of_host : translatorAt w_host 2 (VRef 1) (VRef 3) (VRef 4).
Proof. split; vm_compute; reflexivity. Qed.

(** The scenarios of the spec. *)
Example scenario_nothing_skipped :
  fst (toVisualRow (VRef 2) (VNum 3) w_host) = Ok (VNum 3).
Proof. vm_compute. reflexivity. Qed.

Example scenario_row_1_skipped :
  fst (toVisualRow (VRef 2) (VNum 1) w_skip) = Ok unmapped
  ∧ fst (toVisualRow (VRef 2) (VNum 3) w_skip) = Ok (VNum 2)
  ∧ fst (getPhysicalIndex (VRef 3) (VNum 2) w_skip) = Ok (VNum 3).
Proof. vm_compute. done. Qed.

Example scenario_hook_adds_10 :
  observe (toPhysical (VRef 2) (VNum 2) (VNum 1) w_host)
  = Ok (VRef 8, [("1", VNum 1); ("length", VNum 2); ("0", VNum 12)]).
Proof. vm_compute. reflexivity. Qed.

Example scenario_object_form :
  observe (toPhysical (VRef 2) (VRef 5) VUndefined w_host)
  = Ok (VRef 8, [("column", VNum 1); ("row", VNum 12)]).
Proof. vm_compute. reflexivity. Qed.

(** An unmapped row goes through the hook, which here makes 9 of -1. *)
Example scenario_unmapped_through_hook :
  fst (getPhysicalIndex (VRef 3) (VNum 7) w_host) = Ok unmapped
  ∧ fst (toPhysicalRow (VRef 2) (VNum 7) w_host) = Ok (VNum 9).
Proof. vm_compute. done. Qed.

Example scenario_skipped_methods :
  observe (getSkippedRows (VRef 2) w_skip) = Ok (VRef 8, [("length", VNum 1); ("0", VNum 1)])
  ∧ fst (isSkippedRow (VRef 2) (VNum 1) w_skip) = Ok (VBool true)
  ∧ fst (isSkippedColumn (VRef 2) (VNum 1) w_skip) = Ok (VBool false)
  ∧ fst (setSkippedColumns (VRef 2) (VRef 7) w_skip) = Ok VUndefined.
Proof. vm_compute. done. Qed.

End ScenarioFacts.

(** ** The registry *)

Section RegistryFacts.
Context {Ext : Type}.
Local Abbreviation World := (World Ext).
Local Abbreviation M := (M Ext).

Implicit Types (w : World) (h t : loc) (identity instance hot : value).

Lemma getTranslator_eq identity w :
  getTranslator identity w = bind (resolveInstance identity) singletonFor w.
Proof.
  unfold getTranslator, resolveInstance. rewrite bind_assoc. reflexivity.
Qed.

(** Resolution never changes the store. *)
Lemma resolveInstance_pure identity w :
  snd (resolveInstance identity w) = w.
Proof.
  unfold resolveInstance. rewrite bind_gets.
  destruct (instanceofCore identity w); [done|].
  unfold getIdentity. by destruct (negb _).
Qed.

Lemma resolveInstance_ok identity w instance :
  fst (resolveInstance identity w) = Ok instance →
  resolveInstance identity w = (Ok instance, w).
Proof.
  intros Hr. rewrite <- (resolveInstance_pure identity w) at 2.
  rewrite <- Hr. by destruct (resolveInstance identity w).
Qed.

(** A [Core] instance resolves to itself, another identity to what
    [identities] holds for it. *)
Lemma resolveInstance_core identity w :
  instanceofCore identity w = true →
  resolveInstance identity w = (Ok identity, w).
Proof. intros Hc. unfold resolveInstance. by rewrite bind_gets, Hc. Qed.

Lemma resolveInstance_registered (k : loc) hot w :
  instanceofCore (VRef k) w = false →
  identities w !! k = Some hot →
  resolveInstance (VRef k) w = (Ok hot, w).
Proof.
  intros Hc Hk. unfold resolveInstance. rewrite bind_gets, Hc.
  unfold getIdentity. simpl. by rewrite Hk.
Qed.

Lemma resolveInstance_unregistered identity w :
  instanceofCore identity w = false →
  weakmap_has (identities w) identity = false →
  resolveInstance identity w
  = (Throw (ExnError "Record translator was not registered for this object identity"), w).
Proof.
  intros Hc Hk. unfold resolveInstance. rewrite bind_gets, Hc.
  unfold getIdentity. by rewrite Hk.
Qed.

(** The constructor. *)
Lemma newRecordTranslator_eq hot w :
  newRecordTranslator hot w
  = (Ok (VRef (fresh (dom (heap w)))), set_heap (constructedHeap hot) w).
Proof. reflexivity. Qed.

Lemma fresh_not_in (m : gmap loc object) : m !! fresh (dom m) = None.
Proof. apply not_elem_of_dom, is_fresh. Qed.

Lemma fresh_ne (m : gmap loc object) l o : m !! l = Some o → l ≠ fresh (dom m).
Proof. intros Hl ->. by rewrite fresh_not_in in Hl. Qed.

(** The objects that were there are untouched by the constructor. *)
Lemma constructedHeap_old hot (m : gmap loc object) l o :
  m !! l = Some o → constructedHeap hot m !! l = Some o.
Proof.
  intros Hl. unfold constructedHeap.
  set (this := fresh (dom m)).
  set (m1 := alter _ this (<[this:=_]> m)).
  set (row := fresh (dom m1)).
  set (m2 := alter _ this (<[row:=_]> m1)).
  set (column := fresh (dom m2)).
  assert (Hthis : this ≠ l) by (symmetry; by eapply fresh_ne).
  assert (H1 : m1 !! l = Some o).
  { subst m1. by rewrite lookup_alter_ne, lookup_insert_ne. }
  assert (Hrow : row ≠ l) by (symmetry; by eapply fresh_ne).
  assert (H2 : m2 !! l = Some o).
  { subst m2. by rewrite lookup_alter_ne, lookup_insert_ne. }
  assert (Hcolumn : column ≠ l) by (symmetry; by eapply fresh_ne).
  by rewrite lookup_alter_ne, lookup_insert_ne.
Qed.

(** The new translator holds the host and two index mappers. *)
Lemma constructedHeap_new hot (m : gmap loc object) :
  ∃ row column,
    constructedHeap hot m !! fresh (dom m)
    = Some (Obj ClsRecordTranslator
              (<["columnIndexMapper" := VRef column]>
                 (<["rowIndexMapper" := VRef row]> (<["hot" := hot]> ∅)))).
Proof.
  unfold constructedHeap.
  set (this := fresh (dom m)).
  set (m1 := alter _ this (<[this:=_]> m)).
  set (row := fresh (dom m1)).
  set (m2 := alter _ this (<[row:=_]> m1)).
  set (column := fresh (dom m2)).
  exists row, column.
  assert (H1 : m1 !! this = Some (Obj ClsRecordTranslator (<["hot" := hot]> ∅))).
  { subst m1. by rewrite lookup_alter_eq, lookup_insert_eq. }
  assert (Hrow : row ≠ this) by (symmetry; by eapply fresh_ne).
  assert (H2 : m2 !! this
               = Some (Obj ClsRecordTranslator
                         (<["rowIndexMapper" := VRef row]> (<["hot" := hot]> ∅)))).
  { subst m2. by rewrite lookup_alter_eq, lookup_insert_ne, H1. }
  assert (Hcolumn : column ≠ this) by (symmetry; by eapply fresh_ne).
  by rewrite lookup_alter_eq, lookup_insert_ne, H2.
Qed.

Lemma constructed_classOf hot w l c :
  classOf w l = Some c → classOf (set_heap (constructedHeap hot) w) l = Some c.
Proof.
  unfold classOf. simpl. destruct (heap w !! l) as [o|] eqn:Hl; [|done].
  by rewrite (constructedHeap_old _ _ _ _ Hl).
Qed.

Lemma constructed_translator hot w :
  nullish hot = false →
  classOf (set_heap (constructedHeap hot) w) (fresh (dom (heap w)))
  = Some ClsRecordTranslator
  ∧ ∃ row column,
      translatorAt (set_heap (constructedHeap hot) w) (fresh (dom (heap w)))
        hot (VRef row) (VRef column).
Proof.
  intros Hhot. destruct (constructedHeap_new hot (heap w)) as (row & column & Hnew).
  split.
  - unfold classOf. simpl. by rewrite Hnew.
  - exists row, column. split; try done; unfold field; simpl; by rewrite Hnew.
Qed.

(** The three cases of the second half of [getTranslator]. *)
Lemma singletonFor_cached h v w :
  translatorSingletons w !! h = Some v → singletonFor (VRef h) w = (Ok v, w).
Proof.
  intros Hh. unfold singletonFor. rewrite bind_gets. simpl.
  rewrite Hh. simpl. unfold gets. by rewrite Hh.
Qed.

Lemma singletonFor_new h w :
  translatorSingletons w !! h = None →
  singletonFor (VRef h) w
  = (Ok (VRef (fresh (dom (heap w)))),
     set_translatorSingletons (insert h (VRef (fresh (dom (heap w)))))
       (set_heap (constructedHeap (VRef h)) w)).
Proof.
  intros Hh. unfold singletonFor. rewrite bind_gets. simpl.
  rewrite Hh. simpl.
  by rewrite (bind_ok _ _ _ _ _ (newRecordTranslator_eq (VRef h) w)).
Qed.

Lemma singletonFor_not_object instance w :
  (∀ h, instance ≠ VRef h) →
  singletonFor instance w
  = (Throw (ExnTypeError "Invalid value used as weak map key"),
     set_heap (constructedHeap instance) w).
Proof.
  intros Hi. destruct instance as [| | | | |h]; try reflexivity.
  by destruct (Hi h).
Qed.

(** ** What a run keeps *)

Lemma grows_refl w : grows w w.
Proof. by split. Qed.

Lemma grows_trans w1 w2 w3 : grows w1 w2 → grows w2 w3 → grows w1 w3.
Proof. intros [] []. split; auto. Qed.

Lemma constructed_singletonsOk hot w :
  singletonsOk w → singletonsOk (set_heap (constructedHeap hot) w).
Proof.
  intros Hok h v Hv. destruct (Hok h v Hv) as (t & -> & Ht).
  exists t. split; [done|]. by apply constructed_classOf.
Qed.

Lemma singletonFor_grows instance w r w' :
  singletonFor instance w = (r, w') → identities w' = identities w ∧ grows w w'.
Proof.
  destruct instance as [| | | | |h];
    try (rewrite singletonFor_not_object by done; intros [= _ <-];
         split; [done|]; split;
         [apply constructed_classOf | done | apply constructed_singletonsOk]).
  destruct (translatorSingletons w !! h) as [v|] eqn:Hh.
  - rewrite (singletonFor_cached _ _ _ Hh). intros [= _ <-].
    split; [done | apply grows_refl].
  - rewrite (singletonFor_new _ _ Hh). intros [= _ <-].
    split; [done|]. split.
    + apply constructed_classOf.
    + intros h' v Hv. simpl. rewrite lookup_insert_ne; [done | congruence].
    + intros Hok h' v. simpl. rewrite lookup_insert. case_decide as Hd.
      * intros [= <-]. eexists; split; [done|].
        apply (constructed_translator (VRef h) w). done.
      * intros Hv. by apply (constructed_singletonsOk (VRef h) w Hok h' v).
Qed.

Lemma getTranslator_grows identity w r w' :
  getTranslator identity w = (r, w') → identities w' = identities w ∧ grows w w'.
Proof.
  rewrite getTranslator_eq. unfold bind.
  pose proof (resolveInstance_pure identity w) as Hp.
  destruct (resolveInstance identity w) as [[instance|e] w0]; simpl in Hp; subst w0.
  - apply singletonFor_grows.
  - intros [= _ <-]. split; [done | apply grows_refl].
Qed.

Lemma registerIdentity_grows identity hot w r w' :
  registerIdentity identity hot w = (r, w') → grows w w'.
Proof.
  unfold registerIdentity.
  destruct (weakmap_set _ _ _); intros [= _ <-]; by split.
Qed.

Lemma external_grows w w' : external w w' → grows w w'.
Proof.
  intros [Hi Hs Hc]. split; [done | by rewrite Hs |].
  intros Hok h v. rewrite Hs. intros Hv.
  destruct (Hok h v Hv) as (t & -> & Ht). eauto.
Qed.

Lemma steps_grows w tr w' : steps w tr w' → grows w w'.
Proof.
  induction 1 as [w | w tr w1 identity hot r w2 _ IH Hr
                 | w tr w1 identity r w2 _ IH Hg | w tr w1 w2 _ IH He].
  - apply grows_refl.
  - eapply grows_trans; [done | by eapply registerIdentity_grows].
  - eapply grows_trans; [done | by eapply getTranslator_grows].
  - eapply grows_trans; [done | by apply external_grows].
Qed.

Lemma reachable_singletonsOk w : reachable w → singletonsOk w.
Proof.
  intros (w0 & tr & [_ H0] & Hs). apply (grows_singletonsOk _ _ (steps_grows _ _ _ Hs)).
  intros h v. by rewrite H0.
Qed.

(** The entry was there before the last step: it was there at the start of
    the run, or an earlier event accounts for it. *)
Ltac earlier IH :=
  destruct IH as [?|[x ?]]; [done | by left | right; exists x; by constructor].

(** Every entry of [identities] was put there by [registerIdentity]. *)
Lemma steps_identities w tr w' (k : loc) v :
  steps w tr w' → identities w' !! k = Some v →
  identities w !! k = Some v ∨ ∃ hot, EvRegisterIdentity (VRef k) hot ∈ tr.
Proof.
  induction 1 as [w | w tr w1 identity hot r w2 _ IH Hr
                 | w tr w1 identity r w2 _ IH Hg | w tr w1 w2 _ IH He]; intros Hk.
  - by left.
  - unfold registerIdentity in Hr.
    destruct identity as [| | | | |k']; simpl in Hr; injection Hr as _ <-;
      try by earlier IH.
    simpl in Hk. destruct (decide (k' = k)) as [->|Hne].
    + right. exists hot. constructor.
    + rewrite lookup_insert_ne in Hk by done. by earlier IH.
  - apply getTranslator_grows in Hg as [Hi _]. rewrite Hi in Hk. by earlier IH.
  - destruct He as [Hi _ _]. rewrite Hi in Hk. by earlier IH.
Qed.

(** A call of [getTranslator] caches a singleton for the host it resolves
    to, and for no other. *)
Lemma getTranslator_caches identity w r w' h v :
  getTranslator identity w = (r, w') →
  translatorSingletons w' !! h = Some v →
  translatorSingletons w !! h = Some v
  ∨ fst (resolveInstance identity w) = Ok (VRef h).
Proof.
  rewrite getTranslator_eq. unfold bind.
  pose proof (resolveInstance_pure identity w) as Hp.
  destruct (resolveInstance identity w) as [[instance|e] w0]; simpl in Hp; subst w0;
    [|intros [= _ <-]; by left].
  destruct instance as [| | | | |h'];
    try (rewrite singletonFor_not_object by done; intros [= _ <-]; by left).
  destruct (translatorSingletons w !! h') as [x|] eqn:Hh.
  - rewrite (singletonFor_cached _ _ _ Hh). intros [= _ <-]. by left.
  - rewrite (singletonFor_new _ _ Hh). intros [= _ <-]. simpl.
    rewrite lookup_insert. case_decide as Hd; [subst h'; by right | by left].
Qed.

(** Every cached singleton was made by a call of [getTranslator] that
    resolved to its host. *)
Lemma steps_singletons w tr w' h v :
  steps w tr w' → translatorSingletons w' !! h = Some v →
  translatorSingletons w !! h = Some v
  ∨ ∃ identity, EvGetTranslator identity (Ok (VRef h)) ∈ tr.
Proof.
  induction 1 as [w | w tr w1 identity hot r w2 _ IH Hr
                 | w tr w1 identity r w2 _ IH Hg | w tr w1 w2 _ IH He]; intros Hh.
  - by left.
  - unfold registerIdentity in Hr.
    destruct (weakmap_set _ _ _); injection Hr as _ <-; by earlier IH.
  - destruct (getTranslator_caches _ _ _ _ _ _ Hg Hh) as [Hold | ->].
    + by earlier IH.
    + right. exists identity. constructor.
  - destruct He as [_ Hs _]. rewrite Hs in Hh. by earlier IH.
Qed.

(** Before the first call for a host nothing is cached for it. *)
Lemma first_call_not_cached w0 tr w h :
  initial w0 → steps w0 tr w → noCallFor h tr → translatorSingletons w !! h = None.
Proof.
  intros [_ H0] Hsteps Hno.
  destruct (translatorSingletons w !! h) as [v|] eqn:Hh; [|done].
  destruct (steps_singletons _ _ _ _ _ Hsteps Hh) as [Hv|[identity Hin]].
  - by rewrite H0 in Hv.
  - by destruct (Hno identity).
Qed.

(** ** [instanceof Core] along a call *)

Lemma set_prop_class (m : gmap loc object) this k x l o :
  alter (fun o => Obj (obj_class o) (<[k:=x]> (obj_props o))) this m !! l = Some o →
  ∃ o', m !! l = Some o' ∧ obj_class o' = obj_class o.
Proof.
  rewrite lookup_alter. case_decide as Hd.
  - subst l. destruct (m !! this) as [o'|]; simpl; [|done]. intros [= <-]. eauto.
  - eauto.
Qed.

Lemma new_object_class (m : gmap loc object) l' o' l o :
  <[l':=o']> m !! l = Some o → m !! l = Some o ∨ (l = l' ∧ o = o').
Proof.
  rewrite lookup_insert. case_decide as Hd.
  - intros [= <-]. auto.
  - auto.
Qed.

(** The constructor makes no [Core] instance. *)
Lemma constructedHeap_class hot (m : gmap loc object) l o :
  constructedHeap hot m !! l = Some o →
  (∃ o', m !! l = Some o' ∧ obj_class o' = obj_class o) ∨ obj_class o ≠ ClsCore.
Proof.
  unfold constructedHeap. intros H6.
  apply set_prop_class in H6 as (o5 & H5 & <-).
  apply new_object_class in H5 as [H4|[_ ->]]; [|by right].
  apply set_prop_class in H4 as (o3 & H3 & <-).
  apply new_object_class in H3 as [H2|[_ ->]]; [|by right].
  apply set_prop_class in H2 as (o1 & H1 & <-).
  apply new_object_class in H1 as [H0|[_ ->]]; [|by right].
  left. eauto.
Qed.

Lemma constructed_instanceofCore hot v w :
  instanceofCore v (set_heap (constructedHeap hot) w) = instanceofCore v w.
Proof.
  destruct v as [| | | | |l]; try done. unfold instanceofCore, classOf. simpl.
  destruct (heap w !! l) as [o|] eqn:Hl.
  - by rewrite (constructedHeap_old _ _ _ _ Hl).
  - destruct (constructedHeap hot (heap w) !! l) as [o|] eqn:Hc; [|done].
    apply constructedHeap_class in Hc as [(o' & Ho' & _)|Hc]; [congruence|].
    simpl. rewrite !bool_decide_eq_false_2; [done.. | congruence].
Qed.

Lemma getTranslator_instanceofCore identity w r w' v :
  getTranslator identity w = (r, w') → instanceofCore v w' = instanceofCore v w.
Proof.
  rewrite getTranslator_eq. unfold bind.
  pose proof (resolveInstance_pure identity w) as Hp.
  destruct (resolveInstance identity w) as [[instance|e] w0]; simpl in Hp; subst w0;
    [|by intros [= _ <-]].
  destruct instance as [| | | | |h];
    try (rewrite singletonFor_not_object by done; intros [= _ <-];
         apply constructed_instanceofCore).
  destruct (translatorSingletons w !! h) as [x|] eqn:Hh.
  - rewrite (singletonFor_cached _ _ _ Hh). by intros [= _ <-].
  - rewrite (singletonFor_new _ _ Hh). intros [= _ <-].
    apply (constructed_instanceofCore (VRef h) v w).
Qed.

(** ** Calls of [getTranslator] that resolve to a host *)

Lemma getTranslator_cached identity h v w :
  fst (resolveInstance identity w) = Ok (VRef h) →
  translatorSingletons w !! h = Some v →
  getTranslator identity w = (Ok v, w).
Proof.
  intros Hr Hh. rewrite getTranslator_eq.
  rewrite (bind_ok _ _ _ _ _ (resolveInstance_ok _ _ _ Hr)).
  by apply singletonFor_cached.
Qed.

Lemma getTranslator_first identity h w :
  fst (resolveInstance identity w) = Ok (VRef h) →
  translatorSingletons w !! h = None →
  getTranslator identity w
  = (Ok (VRef (fresh (dom (heap w)))),
     set_translatorSingletons (insert h (VRef (fresh (dom (heap w)))))
       (set_heap (constructedHeap (VRef h)) w)).
Proof.
  intros Hr Hh. rewrite getTranslator_eq.
  rewrite (bind_ok _ _ _ _ _ (resolveInstance_ok _ _ _ Hr)).
  by apply singletonFor_new.
Qed.

(** Whether cached or not, the call returns the translator that is then
    cached for the host. *)
Lemma getTranslator_resolved identity h w :
  singletonsOk w →
  fst (resolveInstance identity w) = Ok (VRef h) →
  ∃ t w',
    getTranslator identity w = (Ok (VRef t), w')
    ∧ translatorSingletons w' !! h = Some (VRef t)
    ∧ classOf w' t = Some ClsRecordTranslator
    ∧ (translatorSingletons w !! h = None →
       heap w !! t = None ∧ field w' t "hot" = VRef h).
Proof.
  intros Hok Hr. destruct (translatorSingletons w !! h) as [v|] eqn:Hh.
  - destruct (Hok h v Hh) as (t & -> & Ht). exists t, w.
    by rewrite (getTranslator_cached _ _ _ _ Hr Hh).
  - eexists _, _. rewrite (getTranslator_first _ _ _ Hr Hh).
    destruct (constructed_translator (VRef h) w eq_refl) as (Hc & row & column & Ht).
    split_and!; [done | simpl; by rewrite lookup_insert_eq | done |].
    intros _. split; [apply fresh_not_in | apply Ht].
Qed.

(** [registerIdentity] returns when, and only when, the key is an object;
    it then holds the host for the key, and touches nothing else. *)
Lemma registerIdentity_ok identity hot w r w1 :
  registerIdentity identity hot w = (Ok r, w1) →
  ∃ k, identity = VRef k ∧ r = VUndefined
       ∧ w1 = set_identities (insert k hot) w.
Proof.
  unfold registerIdentity. destruct identity as [| | | | |k]; try done.
  simpl. intros [= <- <-]. eauto.
Qed.

(** After [registerIdentity(key, h)], a key that is no [Core] instance
    other than [h] resolves to [h]. *)
Lemma registered_key_resolves (k : loc) h w :
  (instanceofCore (VRef k) w = true → VRef k = VRef h) →
  identities w !! k = Some (VRef h) →
  fst (resolveInstance (VRef k) w) = Ok (VRef h).
Proof.
  intros Hcore Hk. destruct (instanceofCore (VRef k) w) eqn:Hc.
  - rewrite (resolveInstance_core _ _ Hc). simpl. f_equal. by apply Hcore.
  - by rewrite (resolveInstance_registered _ _ _ Hc Hk).
Qed.

(** C4: an identity that was never passed to registerIdentity and is not
    a Core instance makes getTranslator throw the "not registered" error;
    nothing is created and nothing is cached. *)
Theorem unregistered_identity_throws w0 tr w identity :
  initial w0 →
  steps w0 tr w →
  neverRegistered identity tr →
  instanceofCore identity w = false →
  getTranslator identity w
  = (Throw (ExnError "Record translator was not registered for this object identity"), w).
Proof.
  intros [H0 _] Hsteps Hnever Hcore.
  rewrite getTranslator_eq. apply bind_throw.
  apply resolveInstance_unregistered; [done|].
  destruct identity as [| | | | |k]; try done. simpl.
  apply bool_decide_eq_false_2. intros [v Hv].
  destruct (steps_identities _ _ _ _ _ Hsteps Hv) as [Hk|[hot Hk]].
  - by rewrite H0 in Hk.
  - by apply (Hnever hot).
Qed.

(** C5: the first call of getTranslator that resolves to a host (no call
    of the run so far did) makes a new RecordTranslator for it, and every
    later call that resolves to the same host, whatever the program did in
    between, returns that very object and makes nothing. *)
Theorem one_translator_per_host w0 tr w identity h :
  initial w0 →
  steps w0 tr w →
  noCallFor h tr →
  fst (resolveInstance identity w) = Ok (VRef h) →
  ∃ t w1 row column,
    getTranslator identity w = (Ok (VRef t), w1)
    ∧ heap w !! t = None
    ∧ classOf w1 t = Some ClsRecordTranslator
    ∧ translatorAt w1 t (VRef h) (VRef row) (VRef column)
    ∧ ∀ tr' w2 identity',
        steps w1 tr' w2 →
        fst (resolveInstance identity' w2) = Ok (VRef h) →
        getTranslator identity' w2 = (Ok (VRef t), w2).
Proof.
  intros Hinit Hrun Hfirst Hr.
  pose proof (first_call_not_cached _ _ _ _ Hinit Hrun Hfirst) as Hh.
  destruct (constructed_translator (VRef h) w eq_refl) as (Hc & row & column & Ht).
  eexists _, _, row, column. rewrite (getTranslator_first _ _ _ Hr Hh).
  split_and!; [done | apply fresh_not_in | done | by destruct Ht |].
  intros tr' w2 identity' Hsteps Hr'.
  apply getTranslator_cached with (h := h); [done|].
  apply (grows_singletons _ _ (steps_grows _ _ _ Hsteps)).
  simpl. by rewrite lookup_insert_eq.
Qed.

(** C6, for a host that is an object and a key that is not a Core instance
    other than the host: after registerIdentity(key, host) has returned,
    getTranslator(key) returns the RecordTranslator that is cached for the
    host, and made for it when there was none. *)
Theorem registered_key_gets_host_translator w key h r w1 :
  reachable w →
  registerIdentity key (VRef h) w = (Ok r, w1) →
  (instanceofCore key w = true → key = VRef h) →
  ∃ t w2,
    getTranslator key w1 = (Ok (VRef t), w2)
    ∧ translatorSingletons w2 !! h = Some (VRef t)
    ∧ classOf w2 t = Some ClsRecordTranslator
    ∧ (translatorSingletons w !! h = None →
       heap w !! t = None ∧ field w2 t "hot" = VRef h).
Proof.
  intros Hreach Hreg Hcore.
  apply reachable_singletonsOk in Hreach as Hok.
  apply registerIdentity_ok in Hreg as (k & -> & -> & ->).
  apply (getTranslator_resolved (VRef k) h (set_identities (insert k (VRef h)) w) Hok).
  apply registered_key_resolves; [done|]. simpl. by rewrite lookup_insert_eq.
Qed.

(** C10, for a key that is not a Core instance other than the host: for a
    Core instance [h], after registerIdentity(k, h) the calls
    getTranslator(k) and getTranslator(h), in either order, return the
    same RecordTranslator object; and so do the calls for two keys
    registered to [h]. *)
Theorem keys_share_host_translator w k h r w1 :
  reachable w →
  instanceofCore (VRef h) w = true →
  registerIdentity k (VRef h) w = (Ok r, w1) →
  (instanceofCore k w = true → k = VRef h) →
  (∃ t w2, getTranslator k w1 = (Ok (VRef t), w2)
           ∧ getTranslator (VRef h) w2 = (Ok (VRef t), w2)
           ∧ classOf w2 t = Some ClsRecordTranslator)
  ∧ (∃ t w2, getTranslator (VRef h) w1 = (Ok (VRef t), w2)
             ∧ getTranslator k w2 = (Ok (VRef t), w2)
             ∧ classOf w2 t = Some ClsRecordTranslator)
  ∧ ∀ k' r' w1',
      registerIdentity k' (VRef h) w1 = (Ok r', w1') →
      (instanceofCore k' w = true → k' = VRef h) →
      ∃ t w2, getTranslator k w1' = (Ok (VRef t), w2)
              ∧ getTranslator k' w2 = (Ok (VRef t), w2)
              ∧ classOf w2 t = Some ClsRecordTranslator.
Proof.
  intros Hreach Hh Hreg Hcore.
  apply reachable_singletonsOk in Hreach as Hok.
  apply registerIdentity_ok in Hreg as (kl & -> & -> & ->).
  set (w1 := set_identities (insert kl (VRef h)) w).
  assert (Hk1 : fst (resolveInstance (VRef kl) w1) = Ok (VRef h)).
  { apply registered_key_resolves; [done|]. simpl. by rewrite lookup_insert_eq. }
  assert (Hh1 : fst (resolveInstance (VRef h) w1) = Ok (VRef h)).
  { by rewrite resolveInstance_core. }
  split_and!.
  - destruct (getTranslator_resolved _ _ w1 Hok Hk1) as (t & w2 & Hg & Ht & Hc & _).
    exists t, w2. split_and!; [done | | done].
    apply getTranslator_cached with (h := h); [|done].
    rewrite resolveInstance_core; [done|].
    by rewrite (getTranslator_instanceofCore _ _ _ _ _ Hg).
  - destruct (getTranslator_resolved _ _ w1 Hok Hh1) as (t & w2 & Hg & Ht & Hc & _).
    exists t, w2. split_and!; [done | | done].
    apply getTranslator_cached with (h := h); [|done].
    apply registered_key_resolves.
    + by rewrite (getTranslator_instanceofCore _ _ _ _ _ Hg).
    + destruct (getTranslator_grows _ _ _ _ Hg) as [-> _]. simpl.
      by rewrite lookup_insert_eq.
  - intros k' r' w1' Hreg' Hcore'.
    apply registerIdentity_ok in Hreg' as (kl' & -> & -> & ->).
    set (w1' := set_identities (insert kl' (VRef h)) w1).
    assert (Hk : fst (resolveInstance (VRef kl) w1') = Ok (VRef h)).
    { apply registered_key_resolves; [done|]. simpl.
      rewrite lookup_insert. case_decide; [done|]. by rewrite lookup_insert_eq. }
    destruct (getTranslator_resolved _ _ w1' Hok Hk) as (t & w2 & Hg & Ht & Hc & _).
    exists t, w2. split_and!; [done | | done].
    apply getTranslator_cached with (h := h); [|done].
    apply registered_key_resolves.
    + by rewrite (getTranslator_instanceofCore _ _ _ _ _ Hg).
    + destruct (getTranslator_grows _ _ _ _ Hg) as [-> _]. simpl.
      by rewrite lookup_insert_eq.
Qed.

End RegistryFacts.

(** ** The index mapper *)

Module IndexMapperFacts.
Import IndexMapper.

Lemma elem_of_visualOrder m p :
  p ∈ visualOrder m ↔ p ∈ indexOrder m ∧ isSkipped m p = false.
Proof.
  unfold visualOrder, isSkipped. rewrite list_elem_of_filter.
  rewrite bool_decide_eq_false. tauto.
Qed.

(** The visual index of an index that has one is its first slot in the
    visual order. *)
Lemma getVisualIndex_slot m p :
  inRange m p → isSkipped m p = false →
  ∃ i : nat, getVisualIndex m p = Some (Z.of_nat i) ∧ visualOrder m !! i = Some p.
Proof.
  intros Hin Hskip. unfold getVisualIndex. rewrite Hskip.
  destruct (list_find_elem_of (eq p) (visualOrder m) p) as [[i x] Hfind];
    [by apply elem_of_visualOrder | done |].
  rewrite Hfind. apply list_find_Some in Hfind as (Hi & <- & _).
  by exists i.
Qed.

Lemma getPhysicalIndex_slot m (i : nat) :
  getPhysicalIndex m (Z.of_nat i) = visualOrder m !! i.
Proof.
  unfold getPhysicalIndex. rewrite decide_True by lia. by rewrite Nat2Z.id.
Qed.

(** The slot found for [p] holds [p]. *)
Lemma slot_round_trip m p (i : nat) :
  getVisualIndex m p = Some (Z.of_nat i) →
  visualOrder m !! i = Some p →
  getVisualIndex m p ≫= getPhysicalIndex m = Some p.
Proof. intros -> Hi. simpl. by rewrite getPhysicalIndex_slot. Qed.

(** C3: for a physical index [p] within the range of the axis that is not
    skipped, the physical index of the visual index of [p] is [p]. *)
Theorem round_trip m p :
  inRange m p →
  isSkipped m p = false →
  getVisualIndex m p ≫= getPhysicalIndex m = Some p.
Proof.
  intros Hin Hskip.
  destruct (getVisualIndex_slot m p Hin Hskip) as (i & Hv & Hi).
  by eapply slot_round_trip.
Qed.

Lemma round_trip_witness :
  let m := Mk [0; 1; 2; 3; 4] [1] in
  inRange m 3 ∧ isSkipped m 3 = false
  ∧ getVisualIndex m 3 ≫= getPhysicalIndex m = Some 3.
Proof.
  assert (Hin : inRange (Mk [0; 1; 2; 3; 4] [1]) 3)
    by (unfold inRange; simpl; repeat constructor).
  split_and!; [exact Hin | reflexivity |].
  apply (round_trip (Mk [0; 1; 2; 3; 4] [1]) 3 Hin). reflexivity.
Defined.

(** On an axis that holds the indexes [0..n-1] in some order, the indexes
    within the range are those from 0 to n-1. *)
Lemma inRange_bounds m (n : nat) p :
  indexOrder m ≡ₚ (Z.of_nat <$> seq 0 n) →
  inRange m p ↔ 0 ≤ p < Z.of_nat n.
Proof.
  intros Hperm. unfold inRange. rewrite Hperm, list_elem_of_fmap. split.
  - intros (i & -> & Hi). apply elem_of_seq in Hi. lia.
  - intros Hp. exists (Z.to_nat p). split; [lia|]. apply elem_of_seq. lia.
Qed.

(** The visual indexes of the indexes that have one are the slots of the
    visual order: they run from 0 to the number of such indexes, less
    one. *)
Lemma getVisualIndex_bounds m p v :
  getVisualIndex m p = Some v → 0 ≤ v < Z.of_nat (length (visualOrder m)).
Proof.
  unfold getVisualIndex. destruct (isSkipped m p); [done|].
  destruct (list_find _ _) as [[i x]|] eqn:Hfind; [|done].
  intros [= <-]. apply list_find_Some in Hfind as (Hi & _).
  apply lookup_lt_Some in Hi. simpl. lia.
Qed.

(** A skipped index has no visual index. *)
Lemma skipped_is_unmapped m p : isSkipped m p = true → getVisualIndex m p = None.
Proof. intros Hskip. unfold getVisualIndex. by rewrite Hskip. Qed.

Example scenario_five_indexes :
  getVisualIndex (Mk [0; 1; 2; 3; 4] []) 3 = Some 3
  ∧ getVisualIndex (Mk [0; 1; 2; 3; 4] [1]) 1 = None
  ∧ getVisualIndex (Mk [0; 1; 2; 3; 4] [1]) 3 = Some 2
  ∧ getPhysicalIndex (Mk [0; 1; 2; 3; 4] [1]) 2 = Some 3.
Proof. vm_compute. done. Qed.

End IndexMapperFacts.

(** ** The theorems at the concrete host *)

Module Instances.
Import Scenario.

Lemma translation_is_mapper_then_hook_witness :
  translatorAt w_host 2 (VRef 1) (VRef 3) (VRef 4)
  ∧ toVisualRow (VRef 2) (VNum 3) w_host
    = (let* v := getVisualIndex (VRef 3) (VNum 3) in
       runHooks (VRef 1) "unmodifyRow" v) w_host
  ∧ toVisualColumn (VRef 2) (VNum 3) w_host
    = (let* v := getVisualIndex (VRef 4) (VNum 3) in
       runHooks (VRef 1) "unmodifyCol" v) w_host
  ∧ toPhysicalRow (VRef 2) (VNum 3) w_host
    = (let* v := getPhysicalIndex (VRef 3) (VNum 3) in
       runHooks (VRef 1) "modifyRow" v) w_host
  ∧ toPhysicalColumn (VRef 2) (VNum 3) w_host
    = (let* v := getPhysicalIndex (VRef 4) (VNum 3) in
       runHooks (VRef 1) "modifyCol" v) w_host.
Proof.
  assert (Ht : translatorAt w_host 2 (VRef 1) (VRef 3) (VRef 4))
    by (split; vm_compute; reflexivity).
  split; [exact Ht|].
  exact (translation_is_mapper_then_hook w_host 2 (VRef 1) (VRef 3) (VRef 4) (VNum 3) Ht).
Defined.

Lemma skipped_methods_pass_through_witness :
  translatorAt w_skip 2 (VRef 1) (VRef 3) (VRef 4)
  ∧ getSkippedRows (VRef 2) w_skip = getSkippedIndexes (VRef 3) w_skip
  ∧ getSkippedColumns (VRef 2) w_skip = getSkippedIndexes (VRef 4) w_skip
  ∧ isSkippedRow (VRef 2) (VRef 7) w_skip = isSkipped (VRef 3) (VRef 7) w_skip
  ∧ isSkippedColumn (VRef 2) (VRef 7) w_skip = isSkipped (VRef 4) (VRef 7) w_skip
  ∧ setSkippedRows (VRef 2) (VRef 7) w_skip
    = (setSkippedIndexes (VRef 3) (VRef 7) ;;; ret VUndefined) w_skip
  ∧ setSkippedColumns (VRef 2) (VRef 7) w_skip
    = (setSkippedIndexes (VRef 4) (VRef 7) ;;; ret VUndefined) w_skip.
Proof.
  assert (Ht : translatorAt w_skip 2 (VRef 1) (VRef 3) (VRef 4))
    by (split; vm_compute; reflexivity).
  split; [exact Ht|].
  exact (skipped_methods_pass_through w_skip 2 (VRef 1) (VRef 3) (VRef 4) (VRef 7) Ht).
Defined.

(** Index 7 is on neither axis: every mapper answers the sentinel. *)
Lemma sentinel_reaches_hook_witness :
  toVisualRow (VRef 2) (VNum 7) w_host = runHooks (VRef 1) "unmodifyRow" unmapped w_host
  ∧ toVisualColumn (VRef 2) (VNum 7) w_host = runHooks (VRef 1) "unmodifyCol" unmapped w_host
  ∧ toPhysicalRow (VRef 2) (VNum 7) w_host = runHooks (VRef 1) "modifyRow" unmapped w_host
  ∧ toPhysicalColumn (VRef 2) (VNum 7) w_host = runHooks (VRef 1) "modifyCol" unmapped w_host.
Proof.
  assert (Ht : translatorAt w_host 2 (VRef 1) (VRef 3) (VRef 4))
    by (split; vm_compute; reflexivity).
  destruct (sentinel_reaches_hook w_host 2 (VRef 1) (VRef 3) (VRef 4) (VNum 7)
              unmapped w_host Ht) as (H1 & H2 & H3 & H4).
  split_and!; [apply H1 | apply H2 | apply H3 | apply H4]; vm_compute; reflexivity.
Defined.

Lemma coordinate_shape_equivalence_witness :
  (∃ l wA wO,
     heap w_host !! l = None
     ∧ toVisual (VRef 2) (VNum 2) (VNum 1) w_host = (Ok (VRef l), wA)
     ∧ pairArrayAt wA l (VNum 2) (VNum 1)
     ∧ sameBut l w_host wA
     ∧ toVisual (VRef 2) (VRef 5) VUndefined w_host = (Ok (VRef l), wO)
     ∧ coordinateObjectAt wO l (VNum 2) (VNum 1)
     ∧ sameBut l w_host wO)
  ∧ (∃ l wA wO,
       heap w_host !! l = None
       ∧ toPhysical (VRef 2) (VNum 2) (VNum 1) w_host = (Ok (VRef l), wA)
       ∧ pairArrayAt wA l (VNum 12) (VNum 1)
       ∧ sameBut l w_host wA
       ∧ toPhysical (VRef 2) (VRef 5) VUndefined w_host = (Ok (VRef l), wO)
       ∧ coordinateObjectAt wO l (VNum 12) (VNum 1)
       ∧ sameBut l w_host wO).
Proof.
  destruct (coordinate_shape_equivalence (VRef 2) w_host (VNum 2) (VNum 1) 5 VUndefined)
    as [Hv Hp]; try (vm_compute; reflexivity).
  split.
  - apply (Hv (VNum 2) w_host (VNum 1) w_host); vm_compute; reflexivity.
  - apply (Hp (VNum 12) w_host (VNum 1) w_host); vm_compute; reflexivity.
Defined.



(** The registry, from the world with two hosts (1 and 2) and a plugin
    object (3). *)
Lemma two_hosts_reachable : reachable w_two_hosts.
Proof. exists w_two_hosts, []. split; [by split | constructor]. Defined.

(** The plugin object was never registered: only host 1 was, as a key for
    host 2. *)
Lemma unregistered_identity_throws_witness :
  let w := snd (registerIdentity (VRef 1) (VRef 2) w_two_hosts) in
  getTranslator (VRef 3) w
  = (Throw (ExnError "Record translator was not registered for this object identity"), w).
Proof.
  apply (unregistered_identity_throws w_two_hosts
           [EvRegisterIdentity (VRef 1) (VRef 2)] _ (VRef 3)).
  - by split.
  - eapply steps_registerIdentity; [constructor | reflexivity].
  - intros hot Hin. apply list_elem_of_singleton in Hin. discriminate Hin.
  - vm_compute. reflexivity.
Defined.

(** Host 1 has its translator; the plugin object, registered for host 2,
    makes the first call for host 2. *)
Lemma one_translator_per_host_witness :
  let w := snd (registerIdentity (VRef 3) (VRef 2)
                  (snd (getTranslator (VRef 1) w_two_hosts))) in
  ∃ t w1 row column,
    getTranslator (VRef 3) w = (Ok (VRef t), w1)
    ∧ heap w !! t = None
    ∧ classOf w1 t = Some ClsRecordTranslator
    ∧ translatorAt w1 t (VRef 2) (VRef row) (VRef column)
    ∧ ∀ tr' w2 identity',
        steps w1 tr' w2 →
        fst (resolveInstance identity' w2) = Ok (VRef 2) →
        getTranslator identity' w2 = (Ok (VRef t), w2).
Proof.
  apply (one_translator_per_host w_two_hosts
           [EvRegisterIdentity (VRef 3) (VRef 2);
            EvGetTranslator (VRef 1) (fst (resolveInstance (VRef 1) w_two_hosts))]
           _ (VRef 3) 2).
  - by split.
  - eapply steps_registerIdentity; [|reflexivity].
    eapply steps_getTranslator; [constructor | apply surjective_pairing].
  - intros identity Hin.
    apply elem_of_cons in Hin as [Hin|Hin]; [discriminate Hin|].
    apply list_elem_of_singleton in Hin. vm_compute in Hin. discriminate Hin.
  - vm_compute. reflexivity.
Defined.

Lemma registered_key_gets_host_translator_witness :
  let w1 := snd (registerIdentity (VRef 3) (VRef 2) w_two_hosts) in
  ∃ t w2,
    getTranslator (VRef 3) w1 = (Ok (VRef t), w2)
    ∧ translatorSingletons w2 !! 2%positive = Some (VRef t)
    ∧ classOf w2 t = Some ClsRecordTranslator
    ∧ (translatorSingletons w_two_hosts !! 2%positive = None →
       heap w_two_hosts !! t = None ∧ field w2 t "hot" = VRef 2).
Proof.
  apply (registered_key_gets_host_translator w_two_hosts (VRef 3) 2 VUndefined).
  - exact two_hosts_reachable.
  - reflexivity.
  - vm_compute. discriminate.
Defined.

Lemma keys_share_host_translator_witness :
  let w1 := snd (registerIdentity (VRef 3) (VRef 2) w_two_hosts) in
  ∃ t w2, getTranslator (VRef 3) w1 = (Ok (VRef t), w2)
          ∧ getTranslator (VRef 2) w2 = (Ok (VRef t), w2)
          ∧ classOf w2 t = Some ClsRecordTranslator.
Proof.
  apply (keys_share_host_translator w_two_hosts (VRef 3) 2 VUndefined).
  - exact two_hosts_reachable.
  - vm_compute. reflexivity.
  - reflexivity.
  - vm_compute. discriminate.
Defined.

(** Host 1 registered as a key for host 2: getTranslator(1) returns the
    translator of host 1 itself, and nothing is cached for host 2.  And a
    host that is not an object cannot have a translator: the call throws. *)
Lemma core_key_gets_its_own_translator :
  let w1 := snd (registerIdentity (VRef 1) (VRef 2) w_two_hosts) in
  let w2 := snd (getTranslator (VRef 1) w1) in
  let w1' := snd (registerIdentity (VRef 3) (VNum 2) w_two_hosts) in
  (fst (registerIdentity (VRef 1) (VRef 2) w_two_hosts) = Ok VUndefined
   ∧ fst (getTranslator (VRef 1) w1) = Ok (VRef 4)
   ∧ field w2 4 "hot" = VRef 1
   ∧ translatorSingletons w2 !! 1%positive = Some (VRef 4)
   ∧ translatorSingletons w2 !! 2%positive = None)
  ∧ (fst (registerIdentity (VRef 3) (VNum 2) w_two_hosts) = Ok VUndefined
     ∧ fst (getTranslator (VRef 3) w1')
       = Throw (ExnTypeError "Invalid value used as weak map key")).
Proof. vm_compute. done. Qed.

(** Host 1 registered as a key for host 2: getTranslator(1) and
    getTranslator(2) return two different translators. *)
Lemma core_key_does_not_share :
  let w1 := snd (registerIdentity (VRef 1) (VRef 2) w_two_hosts) in
  let w2 := snd (getTranslator (VRef 1) w1) in
  instanceofCore (VRef 2) w_two_hosts = true
  ∧ fst (registerIdentity (VRef 1) (VRef 2) w_two_hosts) = Ok VUndefined
  ∧ fst (getTranslator (VRef 1) w1) = Ok (VRef 4)
  ∧ fst (getTranslator (VRef 2) w2) = Ok (VRef 7).
Proof. vm_compute. done. Qed.

(** The cache at work: a second call for the same host, and a call through
    a registered key, return the translator of the first call. *)
Example scenario_singleton :
  let w1 := snd (getTranslator (VRef 2) w_two_hosts) in
  let w2 := snd (registerIdentity (VRef 3) (VRef 2) w1) in
  fst (getTranslator (VRef 2) w_two_hosts) = Ok (VRef 4)
  ∧ getTranslator (VRef 2) w1 = (Ok (VRef 4), w1)
  ∧ getTranslator (VRef 3) w2 = (Ok (VRef 4), w2)
  ∧ fst (getTranslator (VRef 3) w1)
    = Throw (ExnError "Record translator was not registered for this object identity")
  ∧ fst (registerIdentity (VStr "plugin") (VRef 2) w1)
    = Throw (ExnTypeError "Invalid value used as weak map key").
Proof. vm_compute. done. Qed.

End Instances.

(** * Further properties *)

(** ** Failures and results of the translations *)

Section TranslationOutcomes.
Context {Ext : Type} `{!Collaborators Ext}.
Local Abbreviation World := (World Ext).
Local Abbreviation M := (M Ext).

Implicit Types (w : World) (hot rm cm : value).

(** X1: when the index mapper throws, toVisualRow, toVisualColumn,
    toPhysicalRow and toPhysicalColumn throw the same exception and leave
    the store as the mapper left it: the hook is not run. *)
Theorem mapper_failure_skips_hook w (this : loc) hot rm cm index e w1 :
  translatorAt w this hot rm cm →
  (getVisualIndex rm index w = (Throw e, w1) →
   toVisualRow (VRef this) index w = (Throw e, w1))
  ∧ (getVisualIndex cm index w = (Throw e, w1) →
     toVisualColumn (VRef this) index w = (Throw e, w1))
  ∧ (getPhysicalIndex rm index w = (Throw e, w1) →
     toPhysicalRow (VRef this) index w = (Throw e, w1))
  ∧ (getPhysicalIndex cm index w = (Throw e, w1) →
     toPhysicalColumn (VRef this) index w = (Throw e, w1)).
Proof.
  intros Ht. split_and!; intros Hm.
  - erewrite toVisualRow_eq by done. by apply bind_throw.
  - erewrite toVisualColumn_eq by done. by apply bind_throw.
  - erewrite toPhysicalRow_eq by done. by apply bind_throw.
  - erewrite toPhysicalColumn_eq by done. by apply bind_throw.
Qed.

(** A method call [this.hot.runHooks(...)] on a translator without a host
    throws before its argument is evaluated. *)
Lemma hookless_call w (this : loc) key name (f : value → value → M value) x :
  nullish (field w this "hot") = true →
  (let* hot := getProp (VRef this) "hot" in
   callMethod hot
     (let* m := getProp (VRef this) key in callMethod m (ret x) (f m))
     (runHooks hot name)) w
  = (Throw (ExnTypeError "Cannot read properties of undefined or null"), w).
Proof.
  intros Hh. rewrite (bind_ok _ _ _ _ _ (getProp_field this "hot" w)).
  by destruct (field w this "hot").
Qed.

(** X2: on a translator whose [hot] is undefined or null the four
    translations throw a TypeError at once: the index mapper is not
    called and the store is left as it was. *)
Theorem missing_host_throws_first w (this : loc) index :
  nullish (field w this "hot") = true →
  toVisualRow (VRef this) index w
  = (Throw (ExnTypeError "Cannot read properties of undefined or null"), w)
  ∧ toVisualColumn (VRef this) index w
    = (Throw (ExnTypeError "Cannot read properties of undefined or null"), w)
  ∧ toPhysicalRow (VRef this) index w
    = (Throw (ExnTypeError "Cannot read properties of undefined or null"), w)
  ∧ toPhysicalColumn (VRef this) index w
    = (Throw (ExnTypeError "Cannot read properties of undefined or null"), w).
Proof. intros Hh. split_and!; by apply hookless_call. Qed.

(** Allocation always succeeds. *)
Lemma alloc_not_throw (o : object) w e w' : alloc o w ≠ (Throw e, w').
Proof. by rewrite alloc_eq. Qed.

(** When the scalar form throws. *)
Lemma scalarForm_throws (row col : value → M value) r c w e w' :
  scalarForm row col r c w = (Throw e, w')
  ↔ row r w = (Throw e, w')
    ∨ ∃ a w1, row r w = (Ok a, w1) ∧ col c w1 = (Throw e, w').
Proof.
  unfold scalarForm, bind.
  destruct (row r w) as [[a|e0] w1].
  - destruct (col c w1) as [[b|e1] w2] eqn:Hc; split.
    + by intros ?%alloc_not_throw.
    + intros [Heq|(a' & w1' & [= <- <-] & Hc')]; [discriminate Heq | congruence].
    + intros [= <- <-]. right. by exists a, w1.
    + intros [Heq|(a' & w1' & [= <- <-] & Hc')]; [discriminate Heq | congruence].
  - split; [by left|].
    intros [Heq|(a' & w1' & Heq & _)]; [done | discriminate Heq].
Qed.

(** When the object form throws, for an argument that is an object. *)
Lemma objectForm_throws (row col : value → M value) (o : loc) w e w' :
  objectForm row col (VRef o) w = (Throw e, w')
  ↔ row (field w o "row") w = (Throw e, w')
    ∨ ∃ a w1, row (field w o "row") w = (Ok a, w1)
              ∧ col (field w1 o "column") w1 = (Throw e, w').
Proof.
  unfold objectForm.
  rewrite (bind_ok _ _ _ _ _ (getProp_field o "row" w)). unfold bind at 1.
  destruct (row (field w o "row") w) as [[a|e0] w1].
  - rewrite (bind_ok _ _ _ _ _ (getProp_field o "column" w1)). unfold bind.
    destruct (col (field w1 o "column") w1) as [[b|e1] w2] eqn:Hc; split.
    + by intros ?%alloc_not_throw.
    + intros [Heq|(a' & w1' & [= <- <-] & Hc')]; [discriminate Heq | congruence].
    + intros [= <- <-]. right. by exists a, w1.
    + intros [Heq|(a' & w1' & [= <- <-] & Hc')]; [discriminate Heq | congruence].
  - split; [by left|].
    intros [Heq|(a' & w1' & Heq & _)]; [done | discriminate Heq].
Qed.

(** X3: in the scalar form toVisual and toPhysical throw exactly when the
    translation of the row throws, or that of the column after it; the
    exception and the store are those of the failed translation: after a
    failed row the column is not translated, and nothing is allocated. *)
Theorem scalar_form_failures (this : value) row column w e w' :
  isObject row w = false →
  (toVisual this row column w = (Throw e, w')
   ↔ toVisualRow this row w = (Throw e, w')
     ∨ ∃ a w1, toVisualRow this row w = (Ok a, w1)
               ∧ toVisualColumn this column w1 = (Throw e, w'))
  ∧ (toPhysical this row column w = (Throw e, w')
     ↔ toPhysicalRow this row w = (Throw e, w')
       ∨ ∃ a w1, toPhysicalRow this row w = (Ok a, w1)
                 ∧ toPhysicalColumn this column w1 = (Throw e, w')).
Proof.
  intros Hrow. rewrite toVisual_dispatch, toPhysical_dispatch, Hrow.
  split; apply scalarForm_throws.
Qed.

(** X4: in the object form toVisual and toPhysical throw exactly when the
    translation of the object's row throws, or that of its column after
    it; the column is read from the object once the row is translated, and
    a failed row leaves it unread. *)
Theorem object_form_failures (this : value) (o : loc) column w e w' :
  isObject (VRef o) w = true →
  (toVisual this (VRef o) column w = (Throw e, w')
   ↔ toVisualRow this (field w o "row") w = (Throw e, w')
     ∨ ∃ a w1, toVisualRow this (field w o "row") w = (Ok a, w1)
               ∧ toVisualColumn this (field w1 o "column") w1 = (Throw e, w'))
  ∧ (toPhysical this (VRef o) column w = (Throw e, w')
     ↔ toPhysicalRow this (field w o "row") w = (Throw e, w')
       ∨ ∃ a w1, toPhysicalRow this (field w o "row") w = (Ok a, w1)
                 ∧ toPhysicalColumn this (field w1 o "column") w1 = (Throw e, w')).
Proof.
  intros Ho. rewrite toVisual_dispatch, toPhysical_dispatch, Ho.
  split; apply objectForm_throws.
Qed.

(** What a coordinate translation returns, in either form: the inputs of
    the two translations are the two arguments, or the row and the column
    of the first argument, read before and after the row is translated. *)
Lemma form_returns (row col : value → M value) (b : bool) r c w v w' :
  (if b then objectForm row col r w else scalarForm row col r c w) = (Ok v, w') →
  ∃ r' c' x w1 y w2 l,
    (if b then getProp r "row" w = (Ok r', w) ∧ getProp r "column" w1 = (Ok c', w1)
     else r' = r ∧ c' = c)
    ∧ row r' w = (Ok x, w1) ∧ col c' w1 = (Ok y, w2)
    ∧ v = VRef l ∧ heap w2 !! l = None ∧ sameBut l w2 w'
    ∧ (if b then coordinateObjectAt w' l x y else pairArrayAt w' l x y).
Proof.
  destruct b.
  - unfold objectForm, bind.
    destruct (getProp r "row" w) as [[r'|?] w0] eqn:Hr'; [|done].
    assert (w0 = w) as -> by (destruct r; by injection Hr' as _ <-).
    destruct (row r' w) as [[x|?] w1] eqn:Hx; [|done].
    destruct (getProp r "column" w1) as [[c'|?] w0] eqn:Hc'; [|done].
    assert (w0 = w1) as -> by (destruct r; by injection Hc' as _ <-).
    destruct (col c' w1) as [[y|?] w2] eqn:Hy; [|done].
    rewrite alloc_eq. intros [= <- <-].
    exists r', c', x, w1, y, w2, (fresh (dom (heap w2))).
    split_and!; try done;
      [apply alloc_fresh | apply alloc_sameBut | apply alloc_coordinateObject].
  - unfold scalarForm, bind.
    destruct (row r w) as [[x|?] w1] eqn:Hx; [|done].
    destruct (col c w1) as [[y|?] w2] eqn:Hy; [|done].
    rewrite alloc_eq. intros [= <- <-].
    exists r, c, x, w1, y, w2, (fresh (dom (heap w2))).
    split_and!; try done;
      [apply alloc_fresh | apply alloc_sameBut | apply alloc_pairArray].
Qed.

(** X5: whenever toVisual or toPhysical returns, it has translated the
    row and then the column, taken from its two arguments or, for an
    object-like first argument, read from that object's row and column,
    and what it returns is a reference to a new object: one that was not in
    the store the two translations left, an object whose row and column are
    the two translated indexes when the first argument is object-like, an
    array of length 2 whose elements they are otherwise; the objects of that
    store, the two registries and the collaborators' state are unchanged,
    so an argument object is never written to. *)
Theorem coordinate_translation_returns_new_object (this : value) row column w v w' :
  (toVisual this row column w = (Ok v, w') →
   ∃ r c a w1 b w2 l,
     (if isObject row w
      then getProp row "row" w = (Ok r, w) ∧ getProp row "column" w1 = (Ok c, w1)
      else r = row ∧ c = column)
     ∧ toVisualRow this r w = (Ok a, w1) ∧ toVisualColumn this c w1 = (Ok b, w2)
     ∧ v = VRef l ∧ heap w2 !! l = None ∧ sameBut l w2 w'
     ∧ (if isObject row w then coordinateObjectAt w' l a b
        else pairArrayAt w' l a b))
  ∧ (toPhysical this row column w = (Ok v, w') →
     ∃ r c a w1 b w2 l,
       (if isObject row w
        then getProp row "row" w = (Ok r, w) ∧ getProp row "column" w1 = (Ok c, w1)
        else r = row ∧ c = column)
       ∧ toPhysicalRow this r w = (Ok a, w1) ∧ toPhysicalColumn this c w1 = (Ok b, w2)
       ∧ v = VRef l ∧ heap w2 !! l = None ∧ sameBut l w2 w'
       ∧ (if isObject row w then coordinateObjectAt w' l a b
          else pairArrayAt w' l a b)).
Proof.
  rewrite toVisual_dispatch, toPhysical_dispatch.
  split; intros Hres; by apply (form_returns _ _ (isObject row w)) in Hres.
Qed.

(** X6: with an object-like first argument toVisual and toPhysical never
    look at their second argument. *)
Theorem object_form_ignores_second_argument (this : value) row column column' w :
  isObject row w = true →
  toVisual this row column w = toVisual this row column' w
  ∧ toPhysical this row column w = toPhysical this row column' w.
Proof.
  intros Hrow. by rewrite !toVisual_dispatch, !toPhysical_dispatch, Hrow.
Qed.

End TranslationOutcomes.

(** ** The constructor and the registry *)

Section RegistryOutcomes.
Context {Ext : Type}.
Local Abbreviation World := (World Ext).
Local Abbreviation M := (M Ext).

Implicit Types (w : World) (h t k : loc) (identity instance hot : value).

(** The three objects the constructor makes, and the rest of the heap. *)
Lemma constructedHeap_objects hot (m : gmap loc object) :
  ∃ row column,
    m !! fresh (dom m) = None ∧ m !! row = None ∧ m !! column = None
    ∧ fresh (dom m) ≠ row ∧ fresh (dom m) ≠ column ∧ row ≠ column
    ∧ constructedHeap hot m !! fresh (dom m)
      = Some (Obj ClsRecordTranslator
                (<["columnIndexMapper" := VRef column]>
                   (<["rowIndexMapper" := VRef row]> (<["hot" := hot]> ∅))))
    ∧ constructedHeap hot m !! row = Some (Obj ClsIndexMapper ∅)
    ∧ constructedHeap hot m !! column = Some (Obj ClsIndexMapper ∅)
    ∧ ∀ l, l ≠ fresh (dom m) → l ≠ row → l ≠ column →
           constructedHeap hot m !! l = m !! l.
Proof.
  unfold constructedHeap.
  set (this := fresh (dom m)).
  set (m1 := alter _ this (<[this:=_]> m)).
  set (row := fresh (dom m1)).
  set (m2 := alter _ this (<[row:=_]> m1)).
  set (column := fresh (dom m2)).
  exists row, column.
  assert (H1 : m1 !! this = Some (Obj ClsRecordTranslator (<["hot" := hot]> ∅))).
  { subst m1. by rewrite lookup_alter_eq, lookup_insert_eq. }
  assert (Hrow : row ≠ this) by (symmetry; by eapply fresh_ne).
  assert (H1' : ∀ l, l ≠ this → m1 !! l = m !! l).
  { intros l Hl. subst m1. by rewrite lookup_alter_ne, lookup_insert_ne. }
  assert (H2 : m2 !! this
               = Some (Obj ClsRecordTranslator
                         (<["rowIndexMapper" := VRef row]> (<["hot" := hot]> ∅)))).
  { subst m2. by rewrite lookup_alter_eq, lookup_insert_ne, H1. }
  assert (H2r : m2 !! row = Some (Obj ClsIndexMapper ∅)).
  { subst m2. by rewrite lookup_alter_ne, lookup_insert_eq. }
  assert (H2' : ∀ l, l ≠ this → l ≠ row → m2 !! l = m !! l).
  { intros l Hl Hlr. subst m2.
    rewrite lookup_alter_ne, lookup_insert_ne by done. by apply H1'. }
  assert (Hcolumn : column ≠ this) by (symmetry; by eapply fresh_ne).
  assert (Hcr : column ≠ row) by (symmetry; by eapply fresh_ne).
  split_and!; try done.
  - apply fresh_not_in.
  - rewrite <- H1' by done. apply fresh_not_in.
  - rewrite <- H2' by done. apply fresh_not_in.
  - by rewrite lookup_alter_eq, lookup_insert_ne, H2.
  - by rewrite lookup_alter_ne, lookup_insert_ne.
  - by rewrite lookup_alter_ne, lookup_insert_eq.
  - intros l Hl Hlr Hlc.
    rewrite lookup_alter_ne, lookup_insert_ne by done. by apply H2'.
Qed.

(** X7: new RecordTranslator(hot) never throws, whatever [hot] is.  It
    returns a new object that holds [hot] and two new index mappers,
    different from each other; no other object is touched, and neither
    WeakMap. *)
Theorem constructor_makes_three_new_objects hot w :
  ∃ this row column w',
    newRecordTranslator hot w = (Ok (VRef this), w')
    ∧ heap w !! this = None ∧ heap w !! row = None ∧ heap w !! column = None
    ∧ this ≠ row ∧ this ≠ column ∧ row ≠ column
    ∧ heap w' !! this
      = Some (Obj ClsRecordTranslator
                (<["columnIndexMapper" := VRef column]>
                   (<["rowIndexMapper" := VRef row]> (<["hot" := hot]> ∅))))
    ∧ classOf w' row = Some ClsIndexMapper
    ∧ classOf w' column = Some ClsIndexMapper
    ∧ (∀ l, l ≠ this → l ≠ row → l ≠ column → heap w' !! l = heap w !! l)
    ∧ identities w' = identities w
    ∧ translatorSingletons w' = translatorSingletons w
    ∧ ext w' = ext w.
Proof.
  destruct (constructedHeap_objects hot (heap w))
    as (row & column & Ht & Hr & Hc & Htr & Htc & Hrc & Hthis & Hrow & Hcolumn & Hrest).
  exists (fresh (dom (heap w))), row, column, (set_heap (constructedHeap hot) w).
  rewrite newRecordTranslator_eq. unfold classOf. simpl.
  rewrite Hrow, Hcolumn. by split_and!.
Qed.

(** X8: once registerIdentity(identity, hot) has returned, getIdentity(identity)
    returns [hot], the last host registered for the identity, and
    getIdentity answers for every other identity as it did before. *)
Theorem registerIdentity_then_getIdentity identity hot w r w1 :
  registerIdentity identity hot w = (Ok r, w1) →
  getIdentity identity w1 = (Ok hot, w1)
  ∧ ∀ other, other ≠ identity →
             fst (getIdentity other w1) = fst (getIdentity other w).
Proof.
  intros (k & -> & -> & ->)%registerIdentity_ok. split.
  - unfold getIdentity. simpl. by rewrite lookup_insert_eq.
  - intros other Hother. unfold getIdentity.
    destruct other as [| | | | |k']; try done. simpl.
    rewrite lookup_insert_ne by congruence. by destruct (negb _).
Qed.

(** X9: registerIdentity throws, a TypeError, exactly when the identity is
    not an object, and then changes nothing; when it returns, it has
    changed the identities alone: no object is made and no translator is
    cached. *)
Theorem registerIdentity_key_check identity hot w r w1 :
  registerIdentity identity hot w = (r, w1) →
  ((∃ k, identity = VRef k) ↔ r = Ok VUndefined)
  ∧ ((∀ k, identity ≠ VRef k)
     ↔ r = Throw (ExnTypeError "Invalid value used as weak map key") ∧ w1 = w)
  ∧ heap w1 = heap w
  ∧ translatorSingletons w1 = translatorSingletons w
  ∧ ext w1 = ext w.
Proof.
  unfold registerIdentity.
  destruct identity as [| | | | |k]; simpl; intros [= <- <-];
    (split_and!; [split | split | done..]);
    try done; try (by intros [k' [=]]); try (by intros [[=] _]); eauto.
  intros Hk. by destruct (Hk k).
Qed.

(** Reachable worlds stay reachable. *)
Lemma reachable_registerIdentity identity hot w r w' :
  reachable w → registerIdentity identity hot w = (r, w') → reachable w'.
Proof.
  intros (w0 & tr & H0 & Hs) Hr. exists w0, (EvRegisterIdentity identity hot :: tr).
  split; [done | by eapply steps_registerIdentity].
Qed.

Lemma reachable_getTranslator identity w r w' :
  reachable w → getTranslator identity w = (r, w') → reachable w'.
Proof.
  intros (w0 & tr & H0 & Hs) Hg. eexists w0, (_ :: tr).
  split; [done | by eapply steps_getTranslator].
Qed.

(** The resolution of an identity depends on the identities and on which
    objects are [Core] instances, and on nothing else. *)
Lemma resolveInstance_stable identity w w' :
  identities w' = identities w →
  instanceofCore identity w' = instanceofCore identity w →
  fst (resolveInstance identity w') = fst (resolveInstance identity w).
Proof.
  intros Hi Hc. unfold resolveInstance. rewrite !bind_gets, Hc.
  destruct (instanceofCore identity w); [done|].
  unfold getIdentity. rewrite Hi. by destruct (negb _).
Qed.

(** A call that returns has resolved its identity to an object, and what
    it returns is then the singleton cached for that object. *)
Lemma getTranslator_ok identity w v w' :
  getTranslator identity w = (Ok v, w') →
  ∃ h, fst (resolveInstance identity w) = Ok (VRef h)
       ∧ translatorSingletons w' !! h = Some v.
Proof.
  rewrite getTranslator_eq. unfold bind.
  pose proof (resolveInstance_pure identity w) as Hp.
  destruct (resolveInstance identity w) as [[instance|e] w0]; simpl in Hp; subst w0;
    [|done].
  destruct instance as [| | | | |h];
    try (by rewrite singletonFor_not_object by done).
  destruct (translatorSingletons w !! h) as [x|] eqn:Hh.
  - rewrite (singletonFor_cached _ _ _ Hh). intros [= <- <-]. by exists h.
  - rewrite (singletonFor_new _ _ Hh). intros [= <- <-]. exists h.
    split; [done|]. simpl. by rewrite lookup_insert_eq.
Qed.

(** X10: a Core instance needs no registration: in every world the program
    can reach, getTranslator of a Core instance returns, whatever is
    registered, the RecordTranslator cached for that very instance; the
    identities are not changed. *)
Theorem core_instance_needs_no_registration w h :
  reachable w →
  instanceofCore (VRef h) w = true →
  ∃ t w',
    getTranslator (VRef h) w = (Ok (VRef t), w')
    ∧ translatorSingletons w' !! h = Some (VRef t)
    ∧ classOf w' t = Some ClsRecordTranslator
    ∧ identities w' = identities w.
Proof.
  intros Hreach Hcore. apply reachable_singletonsOk in Hreach as Hok.
  destruct (getTranslator_resolved (VRef h) h w Hok) as (t & w' & Hg & Ht & Hc & _).
  { by rewrite resolveInstance_core. }
  exists t, w'. split_and!; try done. by apply getTranslator_grows in Hg as [? _].
Qed.

(** No two hosts share a cached singleton: the invariant, and the steps
    that keep it. *)
Lemma singletonFor_injective instance w r w' :
  singletonFor instance w = (r, w') →
  singletonsOk w →
  (∀ h1 h2 v, translatorSingletons w !! h1 = Some v →
              translatorSingletons w !! h2 = Some v → h1 = h2) →
  ∀ h1 h2 v, translatorSingletons w' !! h1 = Some v →
             translatorSingletons w' !! h2 = Some v → h1 = h2.
Proof.
  intros Hs Hok Hinj.
  destruct instance as [| | | | |h];
    try (rewrite singletonFor_not_object in Hs by done; by injection Hs as _ <-).
  destruct (translatorSingletons w !! h) as [x|] eqn:Hh.
  - rewrite (singletonFor_cached _ _ _ Hh) in Hs. by injection Hs as _ <-.
  - rewrite (singletonFor_new _ _ Hh) in Hs. injection Hs as _ <-. simpl.
    assert (Hnew : ∀ h', translatorSingletons w !! h'
                         ≠ Some (VRef (fresh (dom (heap w))))).
    { intros h' Hh'. destruct (Hok _ _ Hh') as (t & [= <-] & Ht).
      unfold classOf in Ht. by rewrite fresh_not_in in Ht. }
    intros h1 h2 v. rewrite !lookup_insert.
    repeat case_decide; subst; try done.
    + intros [= <-] Hv. by destruct (Hnew h2).
    + intros Hv [= <-]. by destruct (Hnew h1).
    + apply Hinj.
Qed.

Lemma steps_injective w tr w' :
  steps w tr w' →
  singletonsOk w →
  (∀ h1 h2 v, translatorSingletons w !! h1 = Some v →
              translatorSingletons w !! h2 = Some v → h1 = h2) →
  ∀ h1 h2 v, translatorSingletons w' !! h1 = Some v →
             translatorSingletons w' !! h2 = Some v → h1 = h2.
Proof.
  induction 1 as [w | w tr w1 identity hot r w2 Hs IH Hr
                 | w tr w1 identity r w2 Hs IH Hg | w tr w1 w2 Hs IH He];
    intros Hok Hinj.
  - done.
  - unfold registerIdentity in Hr.
    destruct (weakmap_set _ _ _); injection Hr as _ <-; by apply IH.
  - rewrite getTranslator_eq in Hg. unfold bind in Hg.
    pose proof (resolveInstance_pure identity w1) as Hp.
    destruct (resolveInstance identity w1) as [[instance|e] w0]; simpl in Hp; subst w0.
    + eapply singletonFor_injective; [done | | by apply IH].
      by apply (grows_singletonsOk _ _ (steps_grows _ _ _ Hs)).
    + injection Hg as _ <-. by apply IH.
  - destruct He as [_ He _]. rewrite He. by apply IH.
Qed.

Lemma reachable_injective w h1 h2 v :
  reachable w →
  translatorSingletons w !! h1 = Some v →
  translatorSingletons w !! h2 = Some v → h1 = h2.
Proof.
  intros (w0 & tr & [_ H0] & Hs).
  apply (steps_injective _ _ _ Hs); intros ? ?; by rewrite H0.
Qed.

(** X11: two hosts never share a translator: in every world the program
    can reach, calls of getTranslator that resolve to different hosts
    return different objects. *)
Theorem different_hosts_different_translators w identity1 identity2 h1 h2 v1 w1 v2 w2 :
  reachable w →
  fst (resolveInstance identity1 w) = Ok (VRef h1) →
  getTranslator identity1 w = (Ok v1, w1) →
  fst (resolveInstance identity2 w1) = Ok (VRef h2) →
  getTranslator identity2 w1 = (Ok v2, w2) →
  h1 ≠ h2 →
  v1 ≠ v2.
Proof.
  intros Hreach Hr1 Hg1 Hr2 Hg2 Hne <-.
  assert (Hreach2 : reachable w2).
  { eapply reachable_getTranslator; [|done]. by eapply reachable_getTranslator. }
  apply getTranslator_ok in Hg1 as Hc1. destruct Hc1 as (h1' & Hr1' & Hc1).
  apply getTranslator_ok in Hg2 as Hc2. destruct Hc2 as (h2' & Hr2' & Hc2).
  assert (h1' = h1) as -> by congruence. assert (h2' = h2) as -> by congruence.
  apply Hne, (reachable_injective w2 h1 h2 v1 Hreach2); [|done].
  by apply (grows_singletons _ _ (proj2 (getTranslator_grows _ _ _ _ Hg2))).
Qed.

(** X12: getTranslator fails in two ways only.  For an identity that is no
    Core instance and is not registered it throws the "not registered"
    Error and changes nothing.  For an identity registered to a host that
    is not an object it throws the TypeError of the WeakMap, having made a
    translator that it drops: neither WeakMap is changed. *)
Theorem getTranslator_failure_modes identity w e w' :
  getTranslator identity w = (Throw e, w') →
  (e = ExnError "Record translator was not registered for this object identity"
   ∧ w' = w
   ∧ instanceofCore identity w = false
   ∧ weakmap_has (identities w) identity = false)
  ∨ (e = ExnTypeError "Invalid value used as weak map key"
     ∧ instanceofCore identity w = false
     ∧ (∃ k hot, identity = VRef k ∧ identities w !! k = Some hot
                 ∧ ∀ h, hot ≠ VRef h)
     ∧ identities w' = identities w
     ∧ translatorSingletons w' = translatorSingletons w).
Proof.
  rewrite getTranslator_eq. unfold bind, resolveInstance at 1. rewrite bind_gets.
  destruct (instanceofCore identity w) eqn:Hcore.
  - simpl. destruct identity as [| | | | |h]; try done.
    destruct (translatorSingletons w !! h) as [x|] eqn:Hh.
    + by rewrite (singletonFor_cached _ _ _ Hh).
    + by rewrite (singletonFor_new _ _ Hh).
  - unfold getIdentity.
    destruct (weakmap_has (identities w) identity) eqn:Hhas; simpl.
    + destruct identity as [| | | | |k]; try done. simpl in Hhas.
      apply bool_decide_eq_true in Hhas as [hot Hk]. simpl. rewrite Hk. simpl.
      destruct hot as [| | | | |h];
        try (rewrite singletonFor_not_object by done; intros [= <- <-];
             right; split_and!;
             [done | done | eexists k, _; split_and!; [done | exact Hk | done]
             | done | done]).
      destruct (translatorSingletons w !! h) as [x|] eqn:Hh.
      * by rewrite (singletonFor_cached _ _ _ Hh).
      * by rewrite (singletonFor_new _ _ Hh).
    + intros [= <- <-]. by left.
Qed.

(** X13: a call of getTranslator that has returned can be repeated at
    once: the second call returns the same value and changes nothing. *)
Theorem getTranslator_twice identity w v w1 :
  getTranslator identity w = (Ok v, w1) →
  getTranslator identity w1 = (Ok v, w1).
Proof.
  intros Hg. destruct (getTranslator_ok _ _ _ _ Hg) as (h & Hr & Hc).
  apply getTranslator_cached with (h := h); [|done].
  rewrite <- Hr. apply resolveInstance_stable.
  - by apply getTranslator_grows in Hg as [? _].
  - by eapply getTranslator_instanceofCore.
Qed.

(** X14: a key registered anew follows its new host: getTranslator of the
    key then returns the translator of the new host, which is not the one
    it returned before, and the earlier host keeps its own. *)
Theorem reregistered_key_follows_new_host w k h1 h2 r1 w1 v1 w2 r2 w3 :
  reachable w →
  instanceofCore (VRef k) w = false →
  h1 ≠ h2 →
  registerIdentity (VRef k) (VRef h1) w = (Ok r1, w1) →
  getTranslator (VRef k) w1 = (Ok v1, w2) →
  registerIdentity (VRef k) (VRef h2) w2 = (Ok r2, w3) →
  ∃ v2 w4,
    getTranslator (VRef k) w3 = (Ok v2, w4)
    ∧ v2 ≠ v1
    ∧ translatorSingletons w4 !! h1 = Some v1
    ∧ translatorSingletons w4 !! h2 = Some v2.
Proof.
  intros Hreach Hcore Hne Hreg1 Hg1 Hreg2.
  assert (Hreach3 : reachable w3).
  { eapply reachable_registerIdentity; [|done].
    eapply reachable_getTranslator; [|done].
    by eapply reachable_registerIdentity. }
  apply registerIdentity_ok in Hreg1 as (? & [= <-] & -> & ->).
  apply registerIdentity_ok in Hreg2 as (? & [= <-] & -> & ->).
  destruct (getTranslator_ok _ _ _ _ Hg1) as (h & Hr1 & Hc1).
  assert (h = h1) as ->.
  { rewrite (resolveInstance_registered k (VRef h1)) in Hr1; [by injection Hr1 | done |].
    simpl. by rewrite lookup_insert_eq. }
  assert (Hcore2 : instanceofCore (VRef k) w2 = false).
  { by rewrite (getTranslator_instanceofCore _ _ _ _ _ Hg1). }
  set (w3 := set_identities (insert k (VRef h2)) w2) in *.
  destruct (getTranslator_resolved (VRef k) h2 w3) as (t2 & w4 & Hg2 & Hc2 & _).
  { by apply reachable_singletonsOk. }
  { rewrite (resolveInstance_registered k (VRef h2)); [done | done |].
    simpl. by rewrite lookup_insert_eq. }
  assert (Hc1' : translatorSingletons w4 !! h1 = Some v1).
  { by apply (grows_singletons _ _ (proj2 (getTranslator_grows _ _ _ _ Hg2))). }
  exists (VRef t2), w4. split_and!; try done.
  intros Heq. apply Hne. symmetry.
  apply (reachable_injective w4 h2 h1 (VRef t2)); [|done|by rewrite Heq].
  by eapply reachable_getTranslator.
Qed.

(** X16: a registration is never lost: along every run of the program, an
    identity that getIdentity knows stays known to it. *)
Theorem registration_is_never_lost w tr w' identity :
  steps w tr w' →
  weakmap_has (identities w) identity = true →
  ∃ hot, getIdentity identity w' = (Ok hot, w').
Proof.
  intros Hs Hhas.
  assert (Hhas' : weakmap_has (identities w') identity = true).
  { induction Hs as [w | w tr w1 identity' hot r w2 Hs IH Hr
                    | w tr w1 identity' r w2 Hs IH Hg | w tr w1 w2 Hs IH He].
    - done.
    - specialize (IH Hhas). unfold registerIdentity in Hr.
      destruct identity' as [| | | | |k']; simpl in Hr; injection Hr as _ <-;
        try done.
      destruct identity as [| | | | |k]; try done. simpl in *.
      apply bool_decide_eq_true in IH. apply bool_decide_eq_true.
      rewrite lookup_insert. by case_decide.
    - apply getTranslator_grows in Hg as [Hi _]. rewrite Hi. by apply IH.
    - destruct He as [Hi _ _]. rewrite Hi. by apply IH. }
  unfold getIdentity. rewrite Hhas'. simpl. eauto.
Qed.

End RegistryOutcomes.

(** ** The translator of a host at work *)

Section NewTranslator.
Context {Ext : Type} `{!Collaborators Ext}.
Local Abbreviation World := (World Ext).

(** X15: the translator that getTranslator makes runs the hooks of the host
    the identity resolved to, not of the identity, and translates rows and
    columns with two different index mappers of its own. *)
Theorem new_translator_runs_hooks_of_its_host (identity : value) (h : loc) (w : World) :
  fst (resolveInstance identity w) = Ok (VRef h) →
  translatorSingletons w !! h = None →
  ∃ t row column w1,
    getTranslator identity w = (Ok (VRef t), w1)
    ∧ row ≠ column
    ∧ heap w !! row = None ∧ heap w !! column = None
    ∧ ∀ index,
        toVisualRow (VRef t) index w1
        = (let* v := getVisualIndex (VRef row) index in
           runHooks (VRef h) "unmodifyRow" v) w1
        ∧ toVisualColumn (VRef t) index w1
          = (let* v := getVisualIndex (VRef column) index in
             runHooks (VRef h) "unmodifyCol" v) w1
        ∧ toPhysicalRow (VRef t) index w1
          = (let* v := getPhysicalIndex (VRef row) index in
             runHooks (VRef h) "modifyRow" v) w1
        ∧ toPhysicalColumn (VRef t) index w1
          = (let* v := getPhysicalIndex (VRef column) index in
             runHooks (VRef h) "modifyCol" v) w1.
Proof.
  intros Hr Hh.
  destruct (constructedHeap_objects (VRef h) (heap w))
    as (row & column & _ & Hrow & Hcolumn & _ & _ & Hrc & Hthis & _).
  eexists _, row, column, _. rewrite (getTranslator_first _ _ _ Hr Hh).
  split_and!; try done. intros index.
  set (w1 := set_translatorSingletons _ _).
  assert (Ht : translatorAt w1 (fresh (dom (heap w))) (VRef h) (VRef row) (VRef column)).
  { split; try done; unfold field; simpl; by rewrite Hthis. }
  split_and!.
  - by eapply toVisualRow_eq.
  - by eapply toVisualColumn_eq.
  - by eapply toPhysicalRow_eq.
  - by eapply toPhysicalColumn_eq.
Qed.

End NewTranslator.

(** ** The further properties at the concrete hosts *)

Module MoreInstances.

(** On the strict host the mappers throw on an index that is not a
    number. *)
Lemma mapper_failure_skips_hook_witness :
  let e := ExnTypeError "index is not a number" in
  let w := Strict.w_strict in
  toVisualRow (VRef 2) VUndefined w = (Throw e, w)
  ∧ toVisualColumn (VRef 2) VUndefined w = (Throw e, w)
  ∧ toPhysicalRow (VRef 2) VUndefined w = (Throw e, w)
  ∧ toPhysicalColumn (VRef 2) VUndefined w = (Throw e, w).
Proof.
  assert (Ht : translatorAt Strict.w_strict 2 (VRef 1) (VRef 3) (VRef 4))
    by (split; vm_compute; reflexivity).
  destruct (mapper_failure_skips_hook Strict.w_strict 2 (VRef 1) (VRef 3) (VRef 4)
              VUndefined (ExnTypeError "index is not a number") Strict.w_strict Ht)
    as (H1 & H2 & H3 & H4).
  split_and!; [apply H1 | apply H2 | apply H3 | apply H4]; reflexivity.
Defined.

(** The translator at 6 was made without a host. *)
Lemma missing_host_throws_first_witness :
  let e := ExnTypeError "Cannot read properties of undefined or null" in
  let w := Strict.w_strict in
  toVisualRow (VRef 6) (VNum 0) w = (Throw e, w)
  ∧ toVisualColumn (VRef 6) (VNum 0) w = (Throw e, w)
  ∧ toPhysicalRow (VRef 6) (VNum 0) w = (Throw e, w)
  ∧ toPhysicalColumn (VRef 6) (VNum 0) w = (Throw e, w).
Proof.
  apply (missing_host_throws_first Strict.w_strict 6 (VNum 0)).
  vm_compute. reflexivity.
Defined.

(** Row 2 is translated, column -3 is thrown by the hook. *)
Lemma scalar_form_failures_witness :
  let e := ExnValue (VNum (-3)) in
  let w := Strict.w_strict in
  toVisual (VRef 2) (VNum 2) (VNum (-3)) w = (Throw e, w)
  ∧ toPhysical (VRef 2) (VNum 2) (VNum (-3)) w = (Throw e, w).
Proof.
  destruct (scalar_form_failures (VRef 2) (VNum 2) (VNum (-3)) Strict.w_strict
              (ExnValue (VNum (-3))) Strict.w_strict) as [Hv Hp];
    [vm_compute; reflexivity|].
  split.
  - apply Hv. right. exists (VNum 2), Strict.w_strict.
    split; vm_compute; reflexivity.
  - apply Hp. right. exists (VNum 2), Strict.w_strict.
    split; vm_compute; reflexivity.
Defined.

(** The same through the coordinate object [{row: 2, column: -3}] at 5. *)
Lemma object_form_failures_witness :
  let e := ExnValue (VNum (-3)) in
  let w := Strict.w_strict in
  toVisual (VRef 2) (VRef 5) VUndefined w = (Throw e, w)
  ∧ toPhysical (VRef 2) (VRef 5) VUndefined w = (Throw e, w).
Proof.
  destruct (object_form_failures (VRef 2) 5 VUndefined Strict.w_strict
              (ExnValue (VNum (-3))) Strict.w_strict) as [Hv Hp];
    [vm_compute; reflexivity|].
  split.
  - apply Hv. right. exists (VNum 2), Strict.w_strict.
    split; vm_compute; reflexivity.
  - apply Hp. right. exists (VNum 2), Strict.w_strict.
    split; vm_compute; reflexivity.
Defined.

Lemma coordinate_translation_returns_new_object_witness :
  let w := Scenario.w_host in
  ∃ r c a w1 b w2 l,
    (if isObject (VRef 5) w
     then getProp (VRef 5) "row" w = (Ok r, w)
          ∧ getProp (VRef 5) "column" w1 = (Ok c, w1)
     else r = VRef 5 ∧ c = VUndefined)
    ∧ toVisualRow (VRef 2) r w = (Ok a, w1) ∧ toVisualColumn (VRef 2) c w1 = (Ok b, w2)
    ∧ VRef 8 = VRef l ∧ heap w2 !! l = None
    ∧ sameBut l w2 (snd (toVisual (VRef 2) (VRef 5) VUndefined w))
    ∧ (if isObject (VRef 5) w
       then coordinateObjectAt (snd (toVisual (VRef 2) (VRef 5) VUndefined w)) l a b
       else pairArrayAt (snd (toVisual (VRef 2) (VRef 5) VUndefined w)) l a b).
Proof.
  apply (coordinate_translation_returns_new_object (VRef 2) (VRef 5) VUndefined
           Scenario.w_host (VRef 8)).
  vm_compute. reflexivity.
Defined.

Lemma object_form_ignores_second_argument_witness :
  let w := Scenario.w_host in
  toVisual (VRef 2) (VRef 5) (VNum 0) w = toVisual (VRef 2) (VRef 5) (VNum 4) w
  ∧ toPhysical (VRef 2) (VRef 5) (VNum 0) w = toPhysical (VRef 2) (VRef 5) (VNum 4) w.
Proof.
  apply (object_form_ignores_second_argument (VRef 2) (VRef 5) (VNum 0) (VNum 4)
           Scenario.w_host).
  vm_compute. reflexivity.
Defined.

Lemma registerIdentity_then_getIdentity_witness :
  let w := Scenario.w_two_hosts in
  let w1 := snd (registerIdentity (VRef 3) (VRef 2) w) in
  getIdentity (VRef 3) w1 = (Ok (VRef 2), w1)
  ∧ ∀ other, other ≠ VRef 3 →
             fst (getIdentity other w1) = fst (getIdentity other w).
Proof.
  apply (registerIdentity_then_getIdentity (VRef 3) (VRef 2) Scenario.w_two_hosts
           VUndefined).
  reflexivity.
Defined.

(** A string is no key. *)
Lemma registerIdentity_key_check_witness :
  let w := Scenario.w_two_hosts in
  let r := Throw (ExnTypeError "Invalid value used as weak map key") in
  ((∃ k, VStr "plugin" = VRef k) ↔ r = Ok VUndefined)
  ∧ ((∀ k, VStr "plugin" ≠ VRef k) ↔ r = r ∧ w = w)
  ∧ heap w = heap w
  ∧ translatorSingletons w = translatorSingletons w
  ∧ ext w = ext w.
Proof.
  apply (registerIdentity_key_check (VStr "plugin") (VRef 2) Scenario.w_two_hosts).
  reflexivity.
Defined.

Lemma more_two_hosts_reachable : reachable Scenario.w_two_hosts.
Proof. exists Scenario.w_two_hosts, []. split; [by split | constructor]. Defined.

Lemma core_instance_needs_no_registration_witness :
  let w := Scenario.w_two_hosts in
  ∃ t w',
    getTranslator (VRef 1) w = (Ok (VRef t), w')
    ∧ translatorSingletons w' !! 1%positive = Some (VRef t)
    ∧ classOf w' t = Some ClsRecordTranslator
    ∧ identities w' = identities w.
Proof.
  apply (core_instance_needs_no_registration Scenario.w_two_hosts 1).
  - exact more_two_hosts_reachable.
  - vm_compute. reflexivity.
Defined.

(** Hosts 1 and 2, asked in turn: the translators are the objects at 4
    and 7. *)
Lemma different_hosts_different_translators_witness :
  VRef 4 ≠ VRef 7.
Proof.
  apply (different_hosts_different_translators Scenario.w_two_hosts
           (VRef 1) (VRef 2) 1 2 (VRef 4)
           (snd (getTranslator (VRef 1) Scenario.w_two_hosts)) (VRef 7)
           (snd (getTranslator (VRef 2)
                   (snd (getTranslator (VRef 1) Scenario.w_two_hosts))))).
  - exact more_two_hosts_reachable.
  - vm_compute. reflexivity.
  - vm_compute. reflexivity.
  - vm_compute. reflexivity.
  - vm_compute. reflexivity.
  - discriminate.
Defined.

(** The plugin object at 3 is not registered. *)
Lemma getTranslator_failure_modes_witness :
  let w := Scenario.w_two_hosts in
  let e := ExnError "Record translator was not registered for this object identity" in
  (e = e ∧ w = w ∧ instanceofCore (VRef 3) w = false
   ∧ weakmap_has (identities w) (VRef 3) = false)
  ∨ (e = ExnTypeError "Invalid value used as weak map key"
     ∧ instanceofCore (VRef 3) w = false
     ∧ (∃ k hot, VRef 3 = VRef k ∧ identities w !! k = Some hot
                 ∧ ∀ h, hot ≠ VRef h)
     ∧ identities w = identities w
     ∧ translatorSingletons w = translatorSingletons w).
Proof.
  apply (getTranslator_failure_modes (VRef 3) Scenario.w_two_hosts).
  vm_compute. reflexivity.
Defined.

Lemma getTranslator_twice_witness :
  let w1 := snd (getTranslator (VRef 1) Scenario.w_two_hosts) in
  getTranslator (VRef 1) w1 = (Ok (VRef 4), w1).
Proof.
  apply (getTranslator_twice (VRef 1) Scenario.w_two_hosts).
  vm_compute. reflexivity.
Defined.

(** The plugin object at 3, registered for host 1 and then for host 2. *)
Lemma reregistered_key_follows_new_host_witness :
  let w1 := snd (registerIdentity (VRef 3) (VRef 1) Scenario.w_two_hosts) in
  let w2 := snd (getTranslator (VRef 3) w1) in
  let w3 := snd (registerIdentity (VRef 3) (VRef 2) w2) in
  ∃ v2 w4,
    getTranslator (VRef 3) w3 = (Ok v2, w4)
    ∧ v2 ≠ VRef 4
    ∧ translatorSingletons w4 !! 1%positive = Some (VRef 4)
    ∧ translatorSingletons w4 !! 2%positive = Some v2.
Proof.
  apply (reregistered_key_follows_new_host Scenario.w_two_hosts 3 1 2
           VUndefined
           (snd (registerIdentity (VRef 3) (VRef 1) Scenario.w_two_hosts))
           (VRef 4)
           (snd (getTranslator (VRef 3)
                   (snd (registerIdentity (VRef 3) (VRef 1) Scenario.w_two_hosts))))
           VUndefined).
  - exact more_two_hosts_reachable.
  - vm_compute. reflexivity.
  - discriminate.
  - reflexivity.
  - vm_compute. reflexivity.
  - reflexivity.
Defined.

Lemma registration_is_never_lost_witness :
  let w := snd (registerIdentity (VRef 3) (VRef 2) Scenario.w_two_hosts) in
  let w' := snd (registerIdentity (VRef 3) (VRef 1) w) in
  ∃ hot, getIdentity (VRef 3) w' = (Ok hot, w').
Proof.
  apply (registration_is_never_lost
           (snd (registerIdentity (VRef 3) (VRef 2) Scenario.w_two_hosts))
           [EvRegisterIdentity (VRef 3) (VRef 1)]).
  - eapply steps_registerIdentity; [constructor | reflexivity].
  - vm_compute. reflexivity.
Defined.

(** The plugin object at 3, registered for host 2, makes the translator of
    host 2. *)
Lemma new_translator_runs_hooks_of_its_host_witness :
  let w := snd (registerIdentity (VRef 3) (VRef 2) Scenario.w_two_hosts) in
  ∃ t row column w1,
    getTranslator (VRef 3) w = (Ok (VRef t), w1)
    ∧ row ≠ column
    ∧ heap w !! row = None ∧ heap w !! column = None
    ∧ ∀ index,
        toVisualRow (VRef t) index w1
        = (let* v := getVisualIndex (VRef row) index in
           runHooks (VRef 2) "unmodifyRow" v) w1
        ∧ toVisualColumn (VRef t) index w1
          = (let* v := getVisualIndex (VRef column) index in
             runHooks (VRef 2) "unmodifyCol" v) w1
        ∧ toPhysicalRow (VRef t) index w1
          = (let* v := getPhysicalIndex (VRef row) index in
             runHooks (VRef 2) "modifyRow" v) w1
        ∧ toPhysicalColumn (VRef t) index w1
          = (let* v := getPhysicalIndex (VRef column) index in
             runHooks (VRef 2) "modifyCol" v) w1.
Proof.
  apply (new_translator_runs_hooks_of_its_host (VRef 3) 2); vm_compute; reflexivity.
Defined.

End MoreInstances.

(** ** The methods and the registry *)

Section MethodsKeepRegistries.
Context {Ext : Type} `{!Collaborators Ext}.
Local Abbreviation M := (M Ext).

Lemma keeps_ret {A} (a : A) : keepsRegistries (Ext := Ext) (ret a).
Proof. by intros w. Qed.

Lemma keeps_throw {A} e : keepsRegistries (Ext := Ext) (A := A) (throw e).
Proof. by intros w. Qed.

Lemma keeps_gets {A} (f : World Ext → A) : keepsRegistries (gets f).
Proof. by intros w. Qed.

Lemma keeps_getProp v k : keepsRegistries (Ext := Ext) (getProp v k).
Proof. intros w. by destruct v. Qed.

Lemma keeps_alloc o : keepsRegistries (Ext := Ext) (alloc o).
Proof. by intros w. Qed.

Lemma keeps_bind {A B} (m : M A) (k : A → M B) :
  keepsRegistries m → (∀ a, keepsRegistries (k a)) → keepsRegistries (bind m k).
Proof.
  intros Hm Hk w. unfold bind. specialize (Hm w).
  destruct (m w) as [[a|e] w1]; simpl in Hm; [|done].
  destruct (Hk a w1) as [Hi Hs]. destruct Hm as [Hi' Hs']. split; congruence.
Qed.

Lemma keeps_callMethod {A} recv (args : M A) meth :
  keepsRegistries args → (∀ a, keepsRegistries (meth a)) →
  keepsRegistries (callMethod recv args meth).
Proof.
  intros Ha Hm. destruct recv; simpl;
    first [apply keeps_throw | by apply keeps_bind].
Qed.

Create HintDb keeps discriminated.
#[local] Hint Resolve keeps_ret keeps_throw keeps_gets keeps_getProp keeps_alloc : keeps.
#[local] Hint Extern 2 (keepsRegistries (bind _ _)) =>
  apply keeps_bind; [|intros ?] : keeps.
#[local] Hint Extern 2 (keepsRegistries (callMethod _ _ _)) =>
  apply keeps_callMethod; [|intros ?] : keeps.
#[local] Hint Extern 3 (keepsRegistries (if ?b then _ else _)) => destruct b : keeps.

(** X17: the methods of a RecordTranslator register nothing and cache
    nothing: when the hooks and the index mappers leave [identities] and
    [translatorSingletons] as they are, so does every method, whether it
    returns or throws. *)
Theorem methods_keep_the_registries :
  (∀ hot name v, keepsRegistries (runHooks hot name v)) →
  (∀ m i, keepsRegistries (getVisualIndex m i)) →
  (∀ m i, keepsRegistries (getPhysicalIndex m i)) →
  (∀ m, keepsRegistries (getSkippedIndexes m)) →
  (∀ m i, keepsRegistries (isSkipped m i)) →
  (∀ m i, keepsRegistries (setSkippedIndexes m i)) →
  ∀ this x y,
    keepsRegistries (toVisualRow this x)
    ∧ keepsRegistries (toVisualColumn this x)
    ∧ keepsRegistries (toVisual this x y)
    ∧ keepsRegistries (toPhysicalRow this x)
    ∧ keepsRegistries (toPhysicalColumn this x)
    ∧ keepsRegistries (toPhysical this x y)
    ∧ keepsRegistries (getSkippedRows this)
    ∧ keepsRegistries (getSkippedColumns this)
    ∧ keepsRegistries (isSkippedRow this x)
    ∧ keepsRegistries (isSkippedColumn this x)
    ∧ keepsRegistries (setSkippedRows this x)
    ∧ keepsRegistries (setSkippedColumns this x).
Proof.
  intros Hhooks Hvisual Hphysical Hget His Hset this x y.
  assert (Hvr : ∀ i, keepsRegistries (toVisualRow this i))
    by (intros i; unfold toVisualRow; auto 10 with keeps).
  assert (Hvc : ∀ i, keepsRegistries (toVisualColumn this i))
    by (intros i; unfold toVisualColumn; auto 10 with keeps).
  assert (Hpr : ∀ i, keepsRegistries (toPhysicalRow this i))
    by (intros i; unfold toPhysicalRow; auto 10 with keeps).
  assert (Hpc : ∀ i, keepsRegistries (toPhysicalColumn this i))
    by (intros i; unfold toPhysicalColumn; auto 10 with keeps).
  split_and!; try done.
  - unfold toVisual. auto 12 with keeps.
  - unfold toPhysical. auto 12 with keeps.
  - unfold getSkippedRows. auto 10 with keeps.
  - unfold getSkippedColumns. auto 10 with keeps.
  - unfold isSkippedRow. auto 10 with keeps.
  - unfold isSkippedColumn. auto 10 with keeps.
  - unfold setSkippedRows. auto 10 with keeps.
  - unfold setSkippedColumns. auto 10 with keeps.
Qed.

End MethodsKeepRegistries.

Module FrameInstances.

(** The hooks and the index mappers of the concrete host keep no state in
    the registry. *)
Lemma methods_keep_the_registries_witness :
  keepsRegistries (Ext := Scenario.Ext) (toVisualRow (VRef 2) (VNum 3))
  ∧ keepsRegistries (Ext := Scenario.Ext) (toVisualColumn (VRef 2) (VNum 3))
  ∧ keepsRegistries (Ext := Scenario.Ext) (toVisual (VRef 2) (VNum 3) (VNum 1))
  ∧ keepsRegistries (Ext := Scenario.Ext) (toPhysicalRow (VRef 2) (VNum 3))
  ∧ keepsRegistries (Ext := Scenario.Ext) (toPhysicalColumn (VRef 2) (VNum 3))
  ∧ keepsRegistries (Ext := Scenario.Ext) (toPhysical (VRef 2) (VNum 3) (VNum 1))
  ∧ keepsRegistries (Ext := Scenario.Ext) (getSkippedRows (VRef 2))
  ∧ keepsRegistries (Ext := Scenario.Ext) (getSkippedColumns (VRef 2))
  ∧ keepsRegistries (Ext := Scenario.Ext) (isSkippedRow (VRef 2) (VNum 3))
  ∧ keepsRegistries (Ext := Scenario.Ext) (isSkippedColumn (VRef 2) (VNum 3))
  ∧ keepsRegistries (Ext := Scenario.Ext) (setSkippedRows (VRef 2) (VNum 3))
  ∧ keepsRegistries (Ext := Scenario.Ext) (setSkippedColumns (VRef 2) (VNum 3)).
Proof.
  apply (methods_keep_the_registries (Ext := Scenario.Ext)).
  - intros hot name v w. destruct v; simpl; split; reflexivity.
  - intros m i w. destruct i; simpl; split; reflexivity.
  - intros m i w. destruct i; simpl; split; reflexivity.
  - intros m w. simpl. split; reflexivity.
  - intros m i w. simpl. split; reflexivity.
  - intros m i w. destruct m; simpl; split; reflexivity.
Defined.

End FrameInstances.
